(** * assets_tool: the timestamp update engine and the link normalizer

    A shallow embedding of [src/main.ts] (class [ToolKitPlugin]) and the
    properties its specification states about it.

    Conventions of the embedding.
    - A JavaScript string is a [string]: a sequence of code units, here
      restricted to the 8-bit range.
    - A JavaScript number that the plugin handles (a file's [mtime], the
      debounce window, a numeric metadata value) is an integer, a [Z].
    - A [Date] object holds a time value that is either [NaN] or an integral
      number of milliseconds since the epoch, in the range [TimeClip] accepts.
    - An [async] method is a computation in the monad [M]: it threads the
      host's state and either returns or throws (a rejected promise).
    - A metadata block (the object the host hands to the callback of
      [processFrontMatter]) is a finite map from its own keys to values; a
      read also finds the names every object inherits ([getKey]). *)

From Stdlib Require Import ZArith Lia Bool List Ascii String.
From stdpp Require Import base option gmap strings.

Local Open Scope Z_scope.

#[local] Arguments String.append !s1 s2 : simpl nomatch.

(** ** Values, exceptions, dates *)

(** A thrown value: the plugin only ever looks at [name] and [message]. *)
Record Exn := mkExn { exn_name : string; exn_message : string }.

(** The outcome of running JavaScript code: a value or a thrown exception. *)
Inductive Res (A : Type) : Type :=
| Ok (a : A)
| Throw (e : Exn).
Arguments Ok {A} a.
Arguments Throw {A} e.

(** The time value of a [Date] object. *)
Inductive Date :=
| InvalidDate
| DateAt (ms : Z).

(** The largest time value, 8.64e15 ms on either side of the epoch. *)
Definition maxTime : Z := 8640000000000000.

(** [new Date(n)] for a number [n]: ECMAScript's TimeClip. *)
Definition TimeClip (n : Z) : Date :=
  if Z.abs n <=? maxTime then DateAt n else InvalidDate.

(** [isNaN(d.getTime())]. *)
Definition isNaN_getTime (d : Date) : bool :=
  match d with InvalidDate => true | DateAt _ => false end.

(** The values a metadata block can hold, as far as the plugin observes
    them.  A structured value (a sequence or a nested mapping) is truthy and
    is not a string; the one further thing the plugin does with it is to
    hand it to [new Date(...)], so it carries the date that constructor
    derives from it. *)
Inductive JsValue :=
| VUndefined
| VNull
| VBool (b : bool)
| VNumber (n : Z)
| VString (s : string)
| VObject (asDate : Date).

(** [!v]: the value is falsy. *)
Definition falsy (v : JsValue) : bool :=
  match v with
  | VUndefined | VNull => true
  | VBool b => negb b
  | VNumber n => n =? 0
  | VString s => if string_dec s "" then true else false
  | VObject _ => false
  end.

(** [new Date(v)] for a value that is not a string. *)
Definition newDate (v : JsValue) : Date :=
  match v with
  | VUndefined => InvalidDate
  | VNull => DateAt 0
  | VBool b => DateAt (if b then 1 else 0)
  | VNumber n => TimeClip n
  | VString _ => InvalidDate
  | VObject d => d
  end.

(** White space and line terminators, the characters [trim] strips and
    [\s] matches, within the 8-bit range. *)
Definition isWhiteSpace (c : ascii) : bool :=
  let n := N_of_ascii c in
  ((9 <=? n) && (n <=? 13) || (n =? 32) || (n =? 160))%N.

Fixpoint allWhiteSpace (s : string) : bool :=
  match s with
  | EmptyString => true
  | String c s' => isWhiteSpace c && allWhiteSpace s'
  end.

(** [s.slice(n)]. *)
Fixpoint dropString (n : nat) (s : string) : string :=
  match n, s with
  | S n', String _ s' => dropString n' s'
  | _, _ => s
  end.

(** ** Settings *)

(** [ignoreGlobalFolder?: string | string[]]. *)
Inductive IgnoreSetting :=
| IgnoreUndefined
| IgnoreString (s : string)
| IgnoreList (l : list string).

Record ToolKitSettings := mkSettings {
  mySetting : string;
  renaming : bool;
  dateFormat : string;
  headerUpdated : string;
  minMinutesBetweenSaves : Z;
  ignoreGlobalFolder : IgnoreSetting;
}.

Definition DEFAULT_SETTINGS : ToolKitSettings :=
  {| mySetting := "default";
     renaming := false;
     dateFormat := "yyyy-MM-dd'T'HH:mm";
     headerUpdated := "modified";
     minMinutesBetweenSaves := 1;
     ignoreGlobalFolder := IgnoreList [] |}.

(** The settings with [ignoreGlobalFolder] set to [v]. *)
Definition withIgnoreGlobalFolder (v : IgnoreSetting) (settings : ToolKitSettings)
    : ToolKitSettings :=
  mkSettings (mySetting settings) (renaming settings) (dateFormat settings)
    (headerUpdated settings) (minMinutesBetweenSaves settings) v.

(** [getIgnoreFolders()]. *)
Definition getIgnoreFolders (settings : ToolKitSettings) : list string :=
  match ignoreGlobalFolder settings with
  | IgnoreString s => [s]
  | IgnoreList l => l
  | IgnoreUndefined => []
  end.

(** ** The imported date functions

    [format], [parse], [add] and [isAfter] come from the date-fns package,
    which is not part of the repository.  [add] and [isAfter] are arithmetic
    on time values and are modelled in full for the one way the plugin calls
    them.  [format] and [parse] interpret a pattern language; the plugin is
    embedded over any implementation of the two (section [Plugin] below),
    and module [DateFns] models them for the tokens of the default pattern,
    [yyyy MM dd HH mm] and [ss], quoted text and punctuation, in a zone with
    a fixed offset from UTC. *)

Module DateFns.

(** Modelled from the spec: [add(date, { minutes })] of date-fns, whose code
    is not in the repository; "nextUpdate = currentMTimeOnFile +
    minMinutesBetweenSaves minutes".  The time value plus
    [minutes * 60 * 1000], clipped by the [Date] constructor. *)
Definition add_minutes (date : Date) (minutes : Z) : Date :=
  match date with
  | InvalidDate => InvalidDate
  | DateAt t => TimeClip (t + minutes * 60 * 1000)
  end.

(** Modelled from the spec: [isAfter(date, dateToCompare)] of date-fns,
    whose code is not in the repository; "strictly after".  The comparison
    [+date > +dateToCompare], false as soon as one side is [NaN]. *)
Definition isAfter (date dateToCompare : Date) : bool :=
  match date, dateToCompare with
  | DateAt a, DateAt b => b <? a
  | _, _ => false
  end.

(** *** The calendar of [Date]

    Day numbers, years, months and days of the month as ECMAScript defines
    them for time values (the proleptic Gregorian calendar); a month is
    1-based here, one more than [MonthFromTime]. *)

Definition msPerDay : Z := 86400000.

Definition Day (t : Z) : Z := t / msPerDay.
Definition TimeWithinDay (t : Z) : Z := t mod msPerDay.

Definition isLeapYear (y : Z) : bool :=
  ((y mod 4 =? 0) && negb (y mod 100 =? 0)) || (y mod 400 =? 0).

Definition DaysInYear (y : Z) : Z := if isLeapYear y then 366 else 365.

(** The day number of the first day of year [y]. *)
Definition DayFromYear (y : Z) : Z :=
  365 * (y - 1970) + (y - 1969) / 4 - (y - 1901) / 100 + (y - 1601) / 400.

(** The largest [y] with [DayFromYear y <= day]: the mean year length
    gives it to within one. *)
Definition YearFromDay (day : Z) : Z :=
  let y := 1970 + (day * 400) / 146097 in
  if day <? DayFromYear y then y - 1
  else if DayFromYear (y + 1) <=? day then y + 1
  else y.

Definition DayWithinYear (day : Z) : Z := day - DayFromYear (YearFromDay day).

(** The day within the year on which month [m] starts, [leap] being 1 in
    a leap year and 0 otherwise. *)
Definition monthStart (leap m : Z) : Z :=
  if m <=? 1 then 0
  else if m =? 2 then 31
  else leap +
    (if m =? 3 then 59 else if m =? 4 then 90 else if m =? 5 then 120
     else if m =? 6 then 151 else if m =? 7 then 181 else if m =? 8 then 212
     else if m =? 9 then 243 else if m =? 10 then 273 else if m =? 11 then 304
     else 334).

Definition leapDay (y : Z) : Z := if isLeapYear y then 1 else 0.

Definition MonthFromDay (day : Z) : Z :=
  let leap := leapDay (YearFromDay day) in
  let d := DayWithinYear day in
  if d <? 31 then 1
  else if d <? 59 + leap then 2
  else if d <? 90 + leap then 3
  else if d <? 120 + leap then 4
  else if d <? 151 + leap then 5
  else if d <? 181 + leap then 6
  else if d <? 212 + leap then 7
  else if d <? 243 + leap then 8
  else if d <? 273 + leap then 9
  else if d <? 304 + leap then 10
  else if d <? 334 + leap then 11
  else 12.

Definition DateFromDay (day : Z) : Z :=
  DayWithinYear day - monthStart (leapDay (YearFromDay day)) (MonthFromDay day) + 1.

Definition daysInMonth (y month : Z) : Z :=
  if month =? 2 then (if isLeapYear y then 29 else 28)
  else if (month =? 4) || (month =? 6) || (month =? 9) || (month =? 11) then 30
  else 31.

(** Year, month and day of the month of a day number. *)
Definition civil_from_days (day : Z) : Z * Z * Z :=
  (YearFromDay day, MonthFromDay day, DateFromDay day).

(** [MakeDay]: the day number of a year, a month and a day of that month. *)
Definition days_from_civil (y m d : Z) : Z :=
  DayFromYear y + monthStart (leapDay y) m + d - 1.

(** *** Local time, broken down *)

(** A local date and time as the getters of [Date] report it; [f_month] is
    1-based (the getter's value plus one). *)
Record Fields := mkFields {
  f_year : Z; f_month : Z; f_day : Z;
  f_hour : Z; f_minute : Z; f_second : Z; f_ms : Z;
}.

(** Minutes east of UTC to milliseconds. *)
Definition zoneMs (zone : Z) : Z := zone * 60000.

Definition fields_of_local (t : Z) : Fields :=
  let '(y, m, d) := civil_from_days (Day t) in
  let tod := TimeWithinDay t in
  {| f_year := y; f_month := m; f_day := d;
     f_hour := tod / 3600000;
     f_minute := (tod / 60000) mod 60;
     f_second := (tod / 1000) mod 60;
     f_ms := tod mod 1000 |}.

Definition local_of_fields (f : Fields) : Z :=
  days_from_civil (f_year f) (f_month f) (f_day f) * msPerDay
  + f_hour f * 3600000 + f_minute f * 60000 + f_second f * 1000 + f_ms f.

(** *** Numbers as digit strings *)

Definition digitChar (d : Z) : ascii := ascii_of_N (Z.to_N (48 + d)).

Definition digitValue (c : ascii) : option Z :=
  let n := Z.of_N (N_of_ascii c) in
  if (48 <=? n) && (n <=? 57) then Some (n - 48) else None.

Fixpoint toString_go (fuel : nat) (n : Z) (acc : string) : string :=
  match fuel with
  | O => acc
  | S fuel' =>
      let acc' := String (digitChar (n mod 10)) acc in
      if n <? 10 then acc' else toString_go fuel' (n / 10) acc'
  end.

(** [n.toString()] for a non-negative integer; a number has no more decimal
    digits than binary ones. *)
Definition toString (n : Z) : string :=
  toString_go (S (Z.to_nat (Z.log2 n))) n "".

Fixpoint zeros (k : nat) : string :=
  match k with O => "" | S k' => String "0" (zeros k') end.

(** [s.padStart(targetLength, "0")]. *)
Definition padStart0 (targetLength : nat) (s : string) : string :=
  zeros (targetLength - String.length s) +:+ s.

Definition addLeadingZeros (number : Z) (targetLength : nat) : string :=
  (if number <? 0 then "-" else "") +:+ padStart0 targetLength (toString (Z.abs number)).

Fixpoint parseNDigits_go (n : nat) (s : string) (acc : Z) : Z * string :=
  match n, s with
  | S n', String c s' =>
      match digitValue c with
      | Some d => parseNDigits_go n' s' (acc * 10 + d)
      | None => (acc, s)
      end
  | _, _ => (acc, s)
  end.

(** [parseNDigits(n, dateString)]: the pattern [/^\d{1,n}/], read as a
    decimal number; the result is the number and the rest of the string. *)
Definition parseNDigits (n : nat) (s : string) : option (Z * string) :=
  match s with
  | String c _ =>
      match digitValue c with
      | Some _ => Some (parseNDigits_go n s 0)
      | None => None
      end
  | EmptyString => None
  end.

(** *** Patterns *)

Inductive Field := Year | Month | DayOfMonth | Hour | Minute | Second.

Inductive Token :=
| TokField (f : Field)
| TokLiteral (s : string).

Definition field_eqb (a b : Field) : bool :=
  match a, b with
  | Year, Year | Month, Month | DayOfMonth, DayOfMonth
  | Hour, Hour | Minute, Minute | Second, Second => true
  | _, _ => false
  end.

(** The length of the pattern token of a field: [yyyy], [MM], [dd], [HH],
    [mm], [ss]. *)
Definition fieldWidth (f : Field) : nat :=
  match f with Year => 4%nat | _ => 2%nat end.

(** [\w]. *)
Definition isWordChar (c : ascii) : bool :=
  let n := N_of_ascii c in
  ((48 <=? n) && (n <=? 57) || (65 <=? n) && (n <=? 90)
   || (97 <=? n) && (n <=? 122) || (n =? 95))%N.

Definition isLetter (c : ascii) : bool :=
  let n := N_of_ascii c in
  ((65 <=? n) && (n <=? 90) || (97 <=? n) && (n <=? 122))%N.

(** The run of characters equal to [c] at the head of [s], and the rest. *)
Fixpoint spanSame (c : ascii) (s : string) : string * string :=
  match s with
  | String c' s' =>
      if Ascii.eqb c c' then let '(run, rest) := spanSame c s' in (String c' run, rest)
      else (EmptyString, s)
  | EmptyString => (EmptyString, EmptyString)
  end.

(** The run of characters other than the quote at the head of [s]. *)
Fixpoint spanUnquoted (s : string) : string * string :=
  match s with
  | String c s' =>
      if Ascii.eqb c "'" then (EmptyString, s)
      else let '(run, rest) := spanUnquoted s' in (String c run, rest)
  | EmptyString => (EmptyString, EmptyString)
  end.

(** The token a run of one word character stands for; [None] for a letter
    run outside the modelled tokens. *)
Definition tokenOfRun (run : string) : option Token :=
  if String.eqb run "yyyy" then Some (TokField Year)
  else if String.eqb run "MM" then Some (TokField Month)
  else if String.eqb run "dd" then Some (TokField DayOfMonth)
  else if String.eqb run "HH" then Some (TokField Hour)
  else if String.eqb run "mm" then Some (TokField Minute)
  else if String.eqb run "ss" then Some (TokField Second)
  else match run with
       | String c _ => if isLetter c then None else Some (TokLiteral run)
       | EmptyString => None
       end.

(** The pattern's tokens, as date-fns splits it with
    [/[yYQqMLwIdDecihHKkms]o|(\w)\1*|''|'(''|[^'])+('|$)|./g]; [None] when
    the pattern leaves the modelled subset (another letter, a quoted text
    with a doubled quote inside, a lone quote, a line break). *)
Fixpoint tokenize_go (fuel : nat) (s : string) : option (list Token) :=
  match s with
  | EmptyString => Some []
  | String c s' =>
      match fuel with
      | O => None
      | S fuel' =>
          if isWordChar c then
            let '(run, rest) := spanSame c s' in
            match tokenOfRun (String c run), tokenize_go fuel' rest with
            | Some tok, Some toks => Some (tok :: toks)
            | _, _ => None
            end
          else if Ascii.eqb c "'" then
            match s' with
            | String "'" rest =>
                option_map (cons (TokLiteral "'")) (tokenize_go fuel' rest)
            | _ =>
                let '(text, rest) := spanUnquoted s' in
                match text, rest with
                | EmptyString, _ => None
                | _, EmptyString => Some [TokLiteral text]
                | _, String _ (String "'" _) => None
                | _, String _ rest' =>
                    option_map (cons (TokLiteral text)) (tokenize_go fuel' rest')
                end
            end
          else if Ascii.eqb c "010" then None
          else option_map (cons (TokLiteral (String c ""))) (tokenize_go fuel' s')
      end
  end.

Definition tokenize (formatStr : string) : option (list Token) :=
  tokenize_go (String.length formatStr) formatStr.

(** *** [format] *)

Definition rangeError (message : string) : Exn := mkExn "RangeError" message.

(** The exception the model answers with for a pattern outside the
    modelled subset; date-fns raises it for a letter it has no meaning for. *)
Definition unescapedLetter : Exn :=
  rangeError "Format string contains an unescaped latin alphabet character".

(** The number a field's token prints; a year is printed without its sign,
    counted from 1 on either side of the era boundary. *)
Definition fieldValue (f : Field) (x : Fields) : Z :=
  match f with
  | Year => let y := f_year x in if 0 <? y then y else 1 - y
  | Month => f_month x
  | DayOfMonth => f_day x
  | Hour => f_hour x
  | Minute => f_minute x
  | Second => f_second x
  end.

Definition formatToken (x : Fields) (tok : Token) : string :=
  match tok with
  | TokField f => addLeadingZeros (fieldValue f x) (fieldWidth f)
  | TokLiteral text => text
  end.

Fixpoint formatTokens (x : Fields) (toks : list Token) : string :=
  match toks with
  | [] => ""
  | tok :: toks' => formatToken x tok +:+ formatTokens x toks'
  end.

(** Modelled from the spec: [format(date, formatStr)] of date-fns, whose
    code is not in the repository; "renders a point in time as a string
    using settings.dateFormat" (section 4.1).  The model prints the local
    time of the zone [zone] minutes east of UTC, token by token, and throws
    on an invalid date as date-fns does. *)
Definition format (zone : Z) (date : Date) (formatStr : string) : Res string :=
  match date with
  | InvalidDate => Throw (rangeError "Invalid time value")
  | DateAt t =>
      match tokenize formatStr with
      | Some toks => Ok (formatTokens (fields_of_local (t + zoneMs zone)) toks)
      | None => Throw unescapedLetter
      end
  end.

(** *** [parse] *)

(** What reading the date string against the tokens gives: the number read
    for each field and the rest of the string, an invalid date, or an
    exception. *)
Inductive Scan :=
| Scanned (values : list (Field * Z)) (rest : string)
| ScanInvalid
| ScanThrow (e : Exn).

Fixpoint scanTokens (toks : list Token) (used : list Field) (dateString : string)
    (values : list (Field * Z)) : Scan :=
  match toks with
  | [] => Scanned values dateString
  | TokField f :: toks' =>
      if existsb (field_eqb f) used then
        ScanThrow (rangeError "The format string mustn't contain the same token twice")
      else
        match parseNDigits (fieldWidth f) dateString with
        | Some (v, rest) => scanTokens toks' (f :: used) rest (values ++ [(f, v)])
        | None => ScanInvalid
        end
  | TokLiteral text :: toks' =>
      if String.prefix text dateString
      then scanTokens toks' used (dropString (String.length text) dateString) values
      else ScanInvalid
  end.

Fixpoint lookupField (f : Field) (values : list (Field * Z)) : option Z :=
  match values with
  | [] => None
  | (g, v) :: values' => if field_eqb f g then Some v else lookupField f values'
  end.

(** A setter: [validate], then [set].  Setting a field resets the fields
    below it, as the setters of date-fns do through [setFullYear(y, 0, 1)],
    [setMonth(m, 1)], [setHours(h, 0, 0, 0)] and so on. *)
Definition applySetter (f : Field) (v : Z) (x : Fields) : option Fields :=
  match f with
  | Year =>
      if 0 <? v then Some (mkFields v 1 1 0 0 0 0) else None
  | Month =>
      if (1 <=? v) && (v <=? 12) then Some (mkFields (f_year x) v 1 0 0 0 0) else None
  | DayOfMonth =>
      if (1 <=? v) && (v <=? daysInMonth (f_year x) (f_month x))
      then Some (mkFields (f_year x) (f_month x) v 0 0 0 0) else None
  | Hour =>
      if (0 <=? v) && (v <=? 23)
      then Some (mkFields (f_year x) (f_month x) (f_day x) v 0 0 0) else None
  | Minute =>
      if (0 <=? v) && (v <=? 59)
      then Some (mkFields (f_year x) (f_month x) (f_day x) (f_hour x) v 0 0) else None
  | Second =>
      if (0 <=? v) && (v <=? 59)
      then Some (mkFields (f_year x) (f_month x) (f_day x) (f_hour x) (f_minute x) v 0)
      else None
  end.

(** The setters in the order of their priorities, highest first. *)
Definition setterOrder : list Field := [Year; Month; DayOfMonth; Hour; Minute; Second].

Fixpoint applySetters (order : list Field) (values : list (Field * Z)) (x : Fields)
    : option Fields :=
  match order with
  | [] => Some x
  | f :: order' =>
      match lookupField f values with
      | None => applySetters order' values x
      | Some v =>
          match applySetter f v x with
          | Some x' => applySetters order' values x'
          | None => None
          end
      end
  end.

(** Modelled from the spec: [parse(dateStr, formatStr, referenceDate)] of
    date-fns, whose code is not in the repository; "parse it against
    settings.dateFormat anchored to now as the reference date for any
    unspecified components" (section 4.1).  The model reads the tokens from
    left to right, allows white space after the last one, and applies the
    setters of the fields read to the reference date, in the zone [zone]. *)
Definition parse (zone : Z) (dateStr formatStr : string) (referenceDate : Date)
    : Res Date :=
  if String.eqb formatStr "" then
    Ok (if String.eqb dateStr "" then referenceDate else InvalidDate)
  else
    match tokenize formatStr with
    | None => Throw unescapedLetter
    | Some toks =>
        match scanTokens toks [] dateStr [] with
        | ScanThrow e => Throw e
        | ScanInvalid => Ok InvalidDate
        | Scanned values rest =>
            if negb (allWhiteSpace rest) then Ok InvalidDate
            else
              match referenceDate with
              | InvalidDate => Ok InvalidDate
              | DateAt now =>
                  match applySetters setterOrder values
                          (fields_of_local (now + zoneMs zone)) with
                  | None => Ok InvalidDate
                  | Some x => Ok (TimeClip (local_of_fields x - zoneMs zone))
                  end
              end
        end
    end.

End DateFns.

(** ** The host

    The note editor the plugin runs in: its files, the metadata blocks its
    parser reads from them, the link index, the editor buffer, the notices
    shown to the user and the console. *)

Record FileStats := mkStats { ctime : Z; mtime : Z; size : Z }.

Record TFile := mkTFile {
  path : string;
  name : string;
  extension : string;
  stat : FileStats;
}.

(** A [TAbstractFile] is a file or a folder; only a file has [stat]. *)
Inductive TAbstractFile :=
| AFile (file : TFile)
| AFolder (folderPath folderName : string).

(** [isTFile(value)]: ["stat" in value]; the narrowed value when it holds. *)
Definition isTFile (value : TAbstractFile) : option TFile :=
  match value with
  | AFile file => Some file
  | AFolder _ _ => None
  end.

Abbreviation FrontMatter := (gmap string JsValue).

(** The names every object inherits from [Object.prototype]; the mapping
    the host hands to the callback is a plain object. *)
Definition OBJECT_PROTOTYPE_KEYS : list string :=
  ["constructor"; "__defineGetter__"; "__defineSetter__"; "hasOwnProperty";
   "__lookupGetter__"; "__lookupSetter__"; "isPrototypeOf";
   "propertyIsEnumerable"; "toString"; "valueOf"; "__proto__";
   "toLocaleString"].

Definition isInherited (key : string) : bool :=
  existsb (String.eqb key) OBJECT_PROTOTYPE_KEYS.

(** What a read finds up the prototype chain: a function of
    [Object.prototype], or under [__proto__] the prototype itself.  Either
    is truthy and is not a string, and [new Date(...)] of it is an invalid
    date: its primitive value is a text no date is written as. *)
Definition inheritedValue : JsValue := VObject InvalidDate.

(** [frontmatter[key]]: the block's own value under [key]; for a key the
    block does not have, what it inherits under that name, [undefined] when
    it inherits nothing. *)
Definition getKey (frontmatter : FrontMatter) (key : string) : JsValue :=
  match frontmatter !! key with
  | Some value => value
  | None => if isInherited key then inheritedValue else VUndefined
  end.

(** The targets of one document in the link index, in iteration order,
    each with its reference count. *)
Abbreviation Links := (list (string * Z)).

Inductive ConsoleEntry :=
| ErrorText (text : string)
| ErrorExn (e : Exn).

Record World := mkWorld {
  (** [app.vault.read(file)], by path. *)
  vaultRead : string -> Res string;
  (** What the host's parser makes of a file's metadata block, by path: the
      mapping, or the exception it raises on a block it cannot parse. *)
  frontMatterOf : string -> Res FrontMatter;
  (** The exception the host raises when it writes a file's block back, if
      it does. *)
  saveFault : string -> option Exn;
  (** The text of a file once the host has written a block back into it,
      from the block and the text the file had. *)
  writeBlock : FrontMatter -> string -> string;
  (** [app.metadataCache.resolvedLinks], in iteration order. *)
  resolvedLinks : list (string * Links);
  (** [app.workspace.getActiveFile()]. *)
  activeFile : option TFile;
  (** The global [ExcalidrawAutomate], when the Excalidraw plugin runs. *)
  excalidrawAutomate : option (TFile -> bool);
  (** The time value of [new Date()]. *)
  clock : Z;
  (** Each [new Notice(message, timeout)], oldest first. *)
  notices : list (string * Z);
  (** Each [console.error(...)], oldest first. *)
  console : list ConsoleEntry;
}.

(** The host writes the block [fm] back into the file at [p]: the file's
    text changes with it, the block being part of the text. *)
Definition withFrontMatter (p : string) (fm : FrontMatter) (w : World) : World :=
  mkWorld
    (fun q =>
       if String.eqb q p then
         match vaultRead w q with
         | Ok text => Ok (writeBlock w fm text)
         | Throw e => Throw e
         end
       else vaultRead w q)
    (fun q => if String.eqb q p then Ok fm else frontMatterOf w q)
    (saveFault w) (writeBlock w) (resolvedLinks w) (activeFile w)
    (excalidrawAutomate w) (clock w) (notices w) (console w).

Definition withNotice (message : string) (timeout : Z) (w : World) : World :=
  mkWorld (vaultRead w) (frontMatterOf w) (saveFault w) (writeBlock w)
    (resolvedLinks w) (activeFile w) (excalidrawAutomate w) (clock w)
    (notices w ++ [(message, timeout)]) (console w).

Definition withConsole (entry : ConsoleEntry) (w : World) : World :=
  mkWorld (vaultRead w) (frontMatterOf w) (saveFault w) (writeBlock w)
    (resolvedLinks w) (activeFile w) (excalidrawAutomate w) (clock w)
    (notices w) (console w ++ [entry]).

(** [w'] is [w] up to entries added to the console. *)
Definition consoleOnly (w w' : World) : Prop :=
  vaultRead w' = vaultRead w /\ frontMatterOf w' = frontMatterOf w
  /\ saveFault w' = saveFault w /\ writeBlock w' = writeBlock w
  /\ resolvedLinks w' = resolvedLinks w
  /\ activeFile w' = activeFile w /\ excalidrawAutomate w' = excalidrawAutomate w
  /\ clock w' = clock w /\ notices w' = notices w.

(** *** Computations over the host *)

(** A computation reads and changes the host's state and returns or throws;
    what it changed before it threw stays changed. *)
Definition M (A : Type) : Type := World -> Res A * World.

Definition ret {A} (a : A) : M A := fun w => (Ok a, w).

Definition bind {A B} (m : M A) (k : A -> M B) : M B :=
  fun w =>
    match m w with
    | (Ok a, w') => k a w'
    | (Throw e, w') => (Throw e, w')
    end.

Definition lift {A} (r : Res A) : M A := fun w => (r, w).

(** [try { m } catch (e) { handler e }]. *)
Definition tryCatch {A} (m : M A) (handler : Exn -> M A) : M A :=
  fun w =>
    match m w with
    | (Ok a, w') => (Ok a, w')
    | (Throw e, w') => handler e w'
    end.

Definition gets {A} (f : World -> A) : M A := fun w => (Ok (f w), w).

Definition modify (f : World -> World) : M unit := fun w => (Ok tt, f w).

Notation "'let*' x ':=' m 'in' k" := (bind m (fun x => k))
  (at level 10, x name, m at level 100, k at level 200).
Notation "m ';;' k" := (bind m (fun _ => k))
  (at level 100, k at level 200, right associativity).

Definition consoleError (entry : ConsoleEntry) : M unit := modify (withConsole entry).

Definition newNotice (message : string) (timeout : Z) : M unit :=
  modify (withNotice message timeout).

(** Modelled from the spec: [app.fileManager.processFrontMatter(file, fn)],
    the host's primitive, whose code is not in the repository; "applied
    atomically; may fail with a structural-parse-error carrying a name and
    message" (sections 4.3 and 6).  The block is parsed, [fn] mutates the
    mapping, the host writes it back into the file, and a failure at any of
    the three steps leaves the file as it was. *)
Definition processFrontMatter (file : TFile) (fn : FrontMatter -> M FrontMatter)
    : M unit :=
  let* frontmatter := (fun w => (frontMatterOf w (path file), w)) in
  let* frontmatter' := fn frontmatter in
  let* fault := gets (fun w => saveFault w (path file)) in
  match fault with
  | Some e => lift (Throw e)
  | None => modify (withFrontMatter (path file) frontmatter')
  end.

(** ** The plugin *)

(** The two date-fns functions that interpret [settings.dateFormat]:
    [format(date, formatStr)] and [parse(dateStr, formatStr, referenceDate)].
    Either may throw. *)
Class DateLib := mkDateLib {
  format : Date -> string -> Res string;
  parse : string -> string -> Date -> Res Date;
}.

(** The model of date-fns in the zone [zone] minutes east of UTC. *)
Definition dateFns (zone : Z) : DateLib :=
  {| format := DateFns.format zone; parse := DateFns.parse zone |}.

(** [s.trim()]. *)
Fixpoint trimStart (s : string) : string :=
  match s with
  | String c s' => if isWhiteSpace c then trimStart s' else s
  | EmptyString => EmptyString
  end.

Fixpoint trimEnd (s : string) : string :=
  match s with
  | String c s' =>
      match trimEnd s' with
      | EmptyString => if isWhiteSpace c then EmptyString else String c EmptyString
      | t => String c t
      end
  | EmptyString => EmptyString
  end.

Definition trim (s : string) : string := trimEnd (trimStart s).

(** What [handleFileChange] resolves to. *)
Inductive Outcome :=
| StatusOk
| StatusError (error : Exn)
| StatusIgnored.

Section Plugin.

Context {lib : DateLib}.
Variable settings : ToolKitSettings.

(** [parseDate(input)]; [None] is [undefined].  The declared type of
    [input] is [number | string], the value read from a metadata block can be
    of any type: whatever is not a string goes to [new Date(input)]. *)
Definition parseDate (input : JsValue) : M (option Date) :=
  match input with
  | VString input =>
      tryCatch
        (let* now := gets (fun w => TimeClip (clock w)) in
         let* parsedDate := lift (parse input (dateFormat settings) now) in
         if isNaN_getTime parsedDate then ret None else ret (Some parsedDate))
        (fun e => consoleError (ErrorExn e) ;; ret None)
  | _ => ret (Some (newDate input))
  end.

(** [formatDate(input)]. *)
Definition formatDate (input : Date) : M string :=
  lift (format input (dateFormat settings)).

(** The assignment [frontmatter[updatedKey] = this.formatDate(mTime)].  The
    callback reaches it with a key that is the block's own or that the block
    does not inherit ([updateFrontMatter], [getKey]), so the assignment
    defines or updates an own property. *)
Definition writeTimestamp (mTime : Date) (frontmatter : FrontMatter)
    : M FrontMatter :=
  let* value := formatDate mTime in
  ret (<[headerUpdated settings := VString value]> frontmatter).

(** [shouldUpdateValue(currentMtime, updateHeader)]; [log] returns at
    once and is left out. *)
Definition shouldUpdateValue (currentMtime updateHeader : Date) : bool :=
  let nextUpdate := DateFns.add_minutes updateHeader (minMinutesBetweenSaves settings) in
  DateFns.isAfter currentMtime nextUpdate.

(** [isExcalidrawFile(file)]. *)
Definition isExcalidrawFile (file : TFile) : M bool :=
  let* ea := gets excalidrawAutomate in
  match ea with
  | Some isExcalidraw => ret (isExcalidraw file)
  | None => ret false
  end.

(** [shouldFileBeIgnored(file)].  The test [!ignores] is never true of an
    array and is left out. *)
Definition shouldFileBeIgnored (file : TFile) : M bool :=
  if String.eqb (path file) "" then ret true
  else if negb (String.eqb (extension file) "md") then ret true
  else if String.eqb (name file) "Canvas.md" then ret true
  else
    let* content := (fun w => (vaultRead w (path file), w)) in
    let fileContent := trim content in
    if (String.length fileContent =? 0)%nat then ret true
    else
      let* isExcalidraw := isExcalidrawFile file in
      if isExcalidraw then ret true
      else
        let ignores := getIgnoreFolders settings in
        ret (existsb (fun ignoreItem => String.prefix ignoreItem (path file)) ignores).

(** The callback [handleFileChange] passes to [processFrontMatter]: it
    mutates the mapping it is given; the result is the mapping as the
    callback leaves it. *)
Definition updateFrontMatter (file : TFile) (frontmatter : FrontMatter)
    : M FrontMatter :=
  let updatedKey := headerUpdated settings in
  let* mTime := parseDate (VNumber (mtime (stat file))) in
  match mTime with
  | None => ret frontmatter
  | Some mTime =>
      let* currentMTimeOnFile := parseDate (getKey frontmatter updatedKey) in
      match falsy (getKey frontmatter updatedKey), currentMTimeOnFile with
      | false, Some currentMTimeOnFile =>
          if shouldUpdateValue mTime currentMTimeOnFile
          then writeTimestamp mTime frontmatter
          else ret frontmatter
      | _, _ => writeTimestamp mTime frontmatter
      end
  end.

(** The text of the notice for a metadata block that does not parse. *)
Definition errorMessage (file : TFile) (e : Exn) : string :=
  "Update time on edit failed" +:+ String "010" (String "009"
  ("Malformed frontamtter on this file : " +:+ path file +:+ String "010" (String "009"
  (String "010" (String "009" (exn_message e)))))).

(** [handleFileChange(file)]. *)
Definition handleFileChange (file : TAbstractFile) : M Outcome :=
  match isTFile file with
  | None => ret StatusIgnored
  | Some file =>
      let* ignored := shouldFileBeIgnored file in
      if ignored then ret StatusIgnored
      else
        let* caught :=
          tryCatch
            (processFrontMatter file (updateFrontMatter file) ;; ret None)
            (fun e =>
               if String.eqb (exn_name e) "YAMLParseError" then
                 newNotice (errorMessage file e) 4000 ;;
                 consoleError (ErrorText (errorMessage file e)) ;;
                 ret (Some (StatusError e))
               else ret None) in
        match caught with
        | Some outcome => ret outcome
        | None => ret StatusOk
        end
  end.

(** The listener of the vault's [modify] event: the file is handled when it
    is the active one ([activeFile === file]; the vault holds one object per
    path); [None] is the listener returning nothing. *)
Definition onModify (file : TAbstractFile) : M (option Outcome) :=
  let* active := gets activeFile in
  match active, file with
  | Some a, AFile f =>
      if String.eqb (path a) (path f)
      then let* outcome := handleFileChange file in ret (Some outcome)
      else ret None
  | _, _ => ret None
  end.

End Plugin.

(** The ways the specification lists for a file to be rejected (section
    4.2).  The content is read before the last three tests, so these are
    stated of a file whose content the vault can read. *)
Inductive Rejected (settings : ToolKitSettings) (w : World) (file : TFile) : Prop :=
| rejected_no_path :
    path file = "" -> Rejected settings w file
| rejected_not_markdown :
    extension file <> "md" -> Rejected settings w file
| rejected_canvas :
    name file = "Canvas.md" -> Rejected settings w file
| rejected_blank content :
    vaultRead w (path file) = Ok content ->
    allWhiteSpace content = true -> Rejected settings w file
| rejected_excalidraw content isExcalidraw :
    vaultRead w (path file) = Ok content ->
    excalidrawAutomate w = Some isExcalidraw ->
    isExcalidraw file = true -> Rejected settings w file
| rejected_folder content ignoreItem :
    vaultRead w (path file) = Ok content ->
    In ignoreItem (getIgnoreFolders settings) ->
    String.prefix ignoreItem (path file) = true -> Rejected settings w file.

(** ** The link normalizer *)

(** *** Regular expressions

    The fragment of the pattern language the command's pattern is written
    in, matched as ECMAScript matches it: by backtracking, greedy
    quantifiers first, each construct handing the rest of the input to its
    continuation.  The quantifier [+] is applied to character classes only,
    which is all the pattern does. *)
Inductive Regex :=
| RChar (c : ascii)                 (* a character, escaped or not *)
| RNoneOf (cs : list ascii)         (* [^...] *)
| RPlusNoneOf (cs : list ascii)     (* [^...]+ *)
| ROpt (r : Regex)                  (* (?:r)? *)
| RGroup (n : nat) (r : Regex)      (* (r), the n-th capturing group *)
| RSeq (r1 r2 : Regex).

(** The text of each capturing group that took part in the match. *)
Abbreviation Captures := (list (nat * string)).

Fixpoint capture (n : nat) (caps : Captures) : option string :=
  match caps with
  | [] => None
  | (m, text) :: caps' => if Nat.eqb n m then Some text else capture n caps'
  end.

Definition noneOf (cs : list ascii) (c : ascii) : bool :=
  negb (existsb (Ascii.eqb c) cs).

(** The first [n] characters of [s]. *)
Fixpoint takeString (n : nat) (s : string) : string :=
  match n, s with
  | S n', String c s' => String c (takeString n' s')
  | _, _ => EmptyString
  end.

(** What a match consumed, given the input it started on and the input it
    left. *)
Definition consumed (s rest : string) : string :=
  takeString (String.length s - String.length rest) s.

(** [[^cs]*] followed by [k]: the longest run first, then shorter ones. *)
Fixpoint starNoneOf {R} (cs : list ascii) (s : string) (k : string -> option R)
    : option R :=
  match s with
  | String c s' =>
      if noneOf cs c then
        match starNoneOf cs s' k with
        | Some r => Some r
        | None => k s
        end
      else k s
  | EmptyString => k EmptyString
  end.

Fixpoint rmatch {R} (r : Regex) (s : string) (caps : Captures)
    (k : string -> Captures -> option R) : option R :=
  match r with
  | RChar c =>
      match s with
      | String c' s' => if Ascii.eqb c c' then k s' caps else None
      | EmptyString => None
      end
  | RNoneOf cs =>
      match s with
      | String c' s' => if noneOf cs c' then k s' caps else None
      | EmptyString => None
      end
  | RPlusNoneOf cs =>
      match s with
      | String c' s' =>
          if noneOf cs c' then starNoneOf cs s' (fun rest => k rest caps) else None
      | EmptyString => None
      end
  | ROpt r' =>
      match rmatch r' s caps k with
      | Some x => Some x
      | None => k s caps
      end
  | RGroup n r' =>
      rmatch r' s caps (fun rest caps' => k rest ((n, consumed s rest) :: caps'))
  | RSeq r1 r2 =>
      rmatch r1 s caps (fun rest caps' => rmatch r2 rest caps' k)
  end.

(** A match of [r] at the head of [s]: the captures and what is left of
    the input. *)
Definition matchHere (r : Regex) (s : string) : option (Captures * string) :=
  rmatch r s [] (fun rest caps => Some (caps, rest)).

(** [s.replace(r, replacer)] for a pattern [r] with the [g] flag and a
    replacer function: the matches are looked for from left to right, each
    search starting where the last match ended; [skip] counts the
    characters of the last match still to pass over.  A match that consumes
    nothing is replaced and the search moves on by one character. *)
Fixpoint replaceAll_go (r : Regex) (replacer : Captures -> string) (skip : nat)
    (s : string) : string :=
  match s with
  | EmptyString =>
      match skip, matchHere r EmptyString with
      | O, Some (caps, _) => replacer caps
      | _, _ => EmptyString
      end
  | String c s' =>
      match skip with
      | S skip' => replaceAll_go r replacer skip' s'
      | O =>
          match matchHere r s with
          | Some (caps, rest) =>
              match (String.length s - String.length rest)%nat with
              | O => replacer caps +:+ String c (replaceAll_go r replacer O s')
              | S n => replacer caps +:+ replaceAll_go r replacer n s'
              end
          | None => String c (replaceAll_go r replacer O s')
          end
      end
  end.

Definition replaceAll (r : Regex) (replacer : Captures -> string) (s : string)
    : string :=
  replaceAll_go r replacer O s.

Fixpoint rseq (rs : list Regex) (last : Regex) : Regex :=
  match rs with
  | [] => last
  | r :: rs' => RSeq r (rseq rs' last)
  end.

(** The pattern of the command,
    [/\!\[\[([^|\]]+)(?:\|([^\]]+))?\]\]/g]. *)
Definition embedPattern : Regex :=
  rseq [RChar "!"; RChar "["; RChar "[";
        RGroup 1 (RPlusNoneOf ["|"; "]"]%char);
        ROpt (RSeq (RChar "|") (RGroup 2 (RPlusNoneOf ["]"%char])));
        RChar "]"]
       (RChar "]").

(** *** The command *)

(** [s.includes(sub)]. *)
Fixpoint includes (s sub : string) : bool :=
  String.prefix sub s
  || match s with
     | String _ s' => includes s' sub
     | EmptyString => false
     end.

(** [s.replace(" ", "%20")]: a string pattern replaces its first
    occurrence only. *)
Fixpoint replaceFirstSpace (s : string) : string :=
  match s with
  | EmptyString => EmptyString
  | String c s' =>
      if Ascii.eqb c " " then "%20" +:+ s' else String c (replaceFirstSpace s')
  end.

(** The loop over [Object.entries(files)]: the first target path that
    includes [url], or [url] itself. *)
Fixpoint resolveUrl (files : Links) (url : string) : string :=
  match files with
  | [] => url
  | (filePath, nr) :: files' =>
      if includes filePath url then filePath else resolveUrl files' url
  end.

(** The replacer of the command, on the texts of the two groups. *)
Definition embedReplacer (files : Links) (caps : Captures) : string :=
  let url := default "" (capture 1 caps) in
  let alt :=
    match capture 2 caps with
    | Some alt => alt
    | None => ""
    end in
  "![" +:+ alt +:+ "](" +:+ replaceFirstSpace (resolveUrl files url) +:+ ")".

(** The editor of the active view: its text, its cursor and the range last
    scrolled into view. *)
Record EditorPosition := mkPos { line : Z; ch : Z }.

Record Editor := mkEditor {
  editorValue : string;
  editorCursor : EditorPosition;
  editorView : option (EditorPosition * EditorPosition);
}.

Definition setValue (text : string) (editor : Editor) : Editor :=
  mkEditor text (editorCursor editor) (editorView editor).

Definition setCursor (pos : EditorPosition) (editor : Editor) : Editor :=
  mkEditor (editorValue editor) pos (editorView editor).

Definition scrollIntoView (from to : EditorPosition) (editor : Editor) : Editor :=
  mkEditor (editorValue editor) (editorCursor editor) (Some (from, to)).

Definition typeError (message : string) : Exn := mkExn "TypeError" message.

(** The loop of [getFiles()]; [currentMd.path] is read in its body, and
    throws there when no file is active. *)
Fixpoint getFiles_loop (currentMd : option TFile) (entries : list (string * Links))
    : Res (option Links) :=
  match entries with
  | [] => Ok None
  | (mdFile, links) :: entries' =>
      match currentMd with
      | None => Throw (typeError "Cannot read properties of null (reading 'path')")
      | Some file =>
          if String.eqb (path file) mdFile then Ok (Some links)
          else getFiles_loop currentMd entries'
      end
  end.

(** [getFiles()]; [None] is [null]. *)
Definition getFiles (w : World) : Res (option Links) :=
  getFiles_loop (activeFile w) (resolvedLinks w).

(** [docContent.replace(/.../g, (_, url, alt) => ...)]. *)
Definition newContent (files : Links) (docContent : string) : string :=
  replaceAll embedPattern (embedReplacer files) docContent.

(** The [editorCallback] of the command [rename-all-image-url]. *)
Definition renameAllImageUrl (w : World) (editor : Editor) : Res Editor :=
  let currentLine := line (editorCursor editor) in
  let docContent := editorValue editor in
  match getFiles w with
  | Throw e => Throw e
  | Ok files =>
      let editor1 :=
        match files with
        | Some files =>
            setValue (newContent files docContent) editor
        | None => editor
        end in
      let editor2 := setCursor (mkPos currentLine 0) editor1 in
      Ok (scrollIntoView (mkPos currentLine 0) (mkPos currentLine 0) editor2)
  end.

(** *** Embeds, as the specification describes them *)

Fixpoint allChars (p : ascii -> bool) (s : string) : bool :=
  match s with
  | EmptyString => true
  | String c s' => p c && allChars p s'
  end.

Definition nonEmpty (s : string) : bool :=
  match s with EmptyString => false | String _ _ => true end.

(** A reference: a run of characters other than [|] and [\]]. *)
Definition isRef (ref : string) : bool :=
  nonEmpty ref && allChars (noneOf ["|"; "]"]%char) ref.

(** An alias: a run of characters other than [\]]. *)
Definition isAlias (alias : string) : bool :=
  nonEmpty alias && allChars (noneOf ["]"%char]) alias.

(** The embed [![[ref]]] or [![[ref|alias]]]. *)
Definition embedText (ref : string) (alias : option string) : string :=
  "![[" +:+ ref
  +:+ match alias with Some a => "|" +:+ a | None => "" end
  +:+ "]]".

(** No match of the pattern starts at a character of [pre] when [pre] is
    followed by [tail]. *)
Fixpoint noMatchStartsIn (pre tail : string) : bool :=
  match pre with
  | EmptyString => true
  | String _ pre' =>
      match matchHere embedPattern (pre +:+ tail) with
      | Some _ => false
      | None => noMatchStartsIn pre' tail
      end
  end.

(** A document as the specification reads it: stretches of text in which
    no match starts, and embeds. *)
Inductive Piece :=
| Text (s : string)
| Embed (ref : string) (alias : option string).

(** The text of the document. *)
Fixpoint source (pieces : list Piece) : string :=
  match pieces with
  | [] => ""
  | Text s :: pieces' => s +:+ source pieces'
  | Embed ref alias :: pieces' => embedText ref alias +:+ source pieces'
  end.

Fixpoint wellFormed (pieces : list Piece) : bool :=
  match pieces with
  | [] => true
  | Text s :: pieces' => noMatchStartsIn s (source pieces') && wellFormed pieces'
  | Embed ref alias :: pieces' =>
      isRef ref
      && match alias with Some a => isAlias a | None => true end
      && wellFormed pieces'
  end.

(** The first target path of the index, in iteration order, that includes
    [ref]; [ref] when there is none. *)
Definition resolvedPath (files : Links) (ref : string) : string :=
  match find (fun entry => includes (fst entry) ref) files with
  | Some entry => fst entry
  | None => ref
  end.

(** The inline link [![alias](url)] an embed is to become. *)
Definition inlineLink (files : Links) (ref : string) (alias : option string) : string :=
  "![" +:+ default "" alias +:+ "](" +:+ replaceFirstSpace (resolvedPath files ref)
  +:+ ")".

(** The document with every embed replaced by its inline link. *)
Fixpoint target (files : Links) (pieces : list Piece) : string :=
  match pieces with
  | [] => ""
  | Text s :: pieces' => s +:+ target files pieces'
  | Embed ref alias :: pieces' => inlineLink files ref alias +:+ target files pieces'
  end.

(** [s] does not start with a character the class [[^cs]] accepts. *)
Definition startsOutside (cs : list ascii) (s : string) : Prop :=
  match s with
  | String c _ => noneOf cs c = false
  | EmptyString => True
  end.

(** What follows the reference in an embed followed by [post]. *)
Definition embedTail (alias : option string) (post : string) : string :=
  match alias with
  | Some a => String "|" (a +:+ String "]" (String "]" post))
  | None => String "]" (String "]" post)
  end.

(** The groups of a match of the pattern on an embed. *)
Definition embedCaptures (ref : string) (alias : option string) : Captures :=
  match alias with
  | Some a => [(2%nat, a); (1%nat, ref)]
  | None => [(1%nat, ref)]
  end.

Definition notSpace (c : ascii) : bool := negb (Ascii.eqb c " ").

(** *** Patterns that determine a date

    The specification's round trip is up to the precision of the pattern.
    A pattern has a precision when it names each unit at most once, names
    the year, and names no smaller unit without the one above it: the year
    alone, the year and the month, and so on down to the second. *)

Fixpoint fieldsOf (toks : list DateFns.Token) : list DateFns.Field :=
  match toks with
  | [] => []
  | DateFns.TokField f :: toks' => f :: fieldsOf toks'
  | DateFns.TokLiteral _ :: toks' => fieldsOf toks'
  end.

Definition hasField (f : DateFns.Field) (toks : list DateFns.Token) : bool :=
  existsb (DateFns.field_eqb f) (fieldsOf toks).

Fixpoint distinctFields (fs : list DateFns.Field) : bool :=
  match fs with
  | [] => true
  | f :: fs' => negb (existsb (DateFns.field_eqb f) fs') && distinctFields fs'
  end.

Definition datePattern (toks : list DateFns.Token) : bool :=
  distinctFields (fieldsOf toks)
  && hasField DateFns.Year toks
  && implb (hasField DateFns.DayOfMonth toks) (hasField DateFns.Month toks)
  && implb (hasField DateFns.Hour toks) (hasField DateFns.DayOfMonth toks)
  && implb (hasField DateFns.Minute toks) (hasField DateFns.Hour toks)
  && implb (hasField DateFns.Second toks) (hasField DateFns.Minute toks).

(** The smallest unit the pattern names. *)
Definition precisionUnit (toks : list DateFns.Token) : DateFns.Field :=
  if hasField DateFns.Second toks then DateFns.Second
  else if hasField DateFns.Minute toks then DateFns.Minute
  else if hasField DateFns.Hour toks then DateFns.Hour
  else if hasField DateFns.DayOfMonth toks then DateFns.DayOfMonth
  else if hasField DateFns.Month toks then DateFns.Month
  else DateFns.Year.

(** The first instant of the year, month, day, hour, minute or second a
    local time lies in. *)
Definition startOfUnit (unit : DateFns.Field) (x : DateFns.Fields) : DateFns.Fields :=
  let y := DateFns.f_year x in
  let m := DateFns.f_month x in
  let d := DateFns.f_day x in
  let h := DateFns.f_hour x in
  let mi := DateFns.f_minute x in
  match unit with
  | DateFns.Year => DateFns.mkFields y 1 1 0 0 0 0
  | DateFns.Month => DateFns.mkFields y m 1 0 0 0 0
  | DateFns.DayOfMonth => DateFns.mkFields y m d 0 0 0 0
  | DateFns.Hour => DateFns.mkFields y m d h 0 0 0
  | DateFns.Minute => DateFns.mkFields y m d h mi 0 0
  | DateFns.Second => DateFns.mkFields y m d h mi (DateFns.f_second x) 0
  end.

(** The time value [t] truncated to [unit] in the local time of [zone]. *)
Definition truncateTo (zone : Z) (unit : DateFns.Field) (t : Z) : Z :=
  DateFns.local_of_fields
    (startOfUnit unit (DateFns.fields_of_local (t + DateFns.zoneMs zone)))
  - DateFns.zoneMs zone.

(** The length of a unit that has one, in milliseconds. *)
Definition unitMs (unit : DateFns.Field) : option Z :=
  match unit with
  | DateFns.Second => Some 1000
  | DateFns.Minute => Some 60000
  | DateFns.Hour => Some 3600000
  | DateFns.DayOfMonth => Some DateFns.msPerDay
  | _ => None
  end.

(** [p] holds of the [n] integers from [i] on. *)
Fixpoint allFrom (n : nat) (i : Z) (p : Z -> bool) : bool :=
  match n with
  | O => true
  | S n' => p i && allFrom n' (i + 1) p
  end.

(** The number a string of digits reads as, after [acc]. *)
Fixpoint digitsValue (ds : string) (acc : Z) : option Z :=
  match ds with
  | EmptyString => Some acc
  | String c ds' =>
      match DateFns.digitValue c with
      | Some d => digitsValue ds' (acc * 10 + d)
      | None => None
      end
  end.

(** What [addLeadingZeros] prints for [v] at width [n] is [n] digits that
    read back as [v]. *)
Definition printsExactly (n : nat) (v : Z) : bool :=
  let s := DateFns.addLeadingZeros v n in
  Nat.eqb (String.length s) n
  && match digitsValue s 0 with Some v' => v' =? v | None => false end
  && nonEmpty s.

(** ** Further functions of the plugin *)

(** [c.toLowerCase()] for one code unit of the 8-bit range: the letters
    [A-Z] and the capital letters of Latin-1. *)
Definition lowerChar (c : ascii) : ascii :=
  let n := N_of_ascii c in
  if ((65 <=? n) && (n <=? 90)
      || (192 <=? n) && (n <=? 222) && negb (n =? 215))%N
  then ascii_of_N (n + 32) else c.

(** [s.toLowerCase()]. *)
Fixpoint toLowerCase (s : string) : string :=
  match s with
  | EmptyString => EmptyString
  | String c s' => String (lowerChar c) (toLowerCase s')
  end.

Definition IMAGE_EXTS : list string :=
  ["jpg"; "jpeg"; "png"; "webp"; "heic"; "tif"; "tiff"; "bmp"; "svg"; "gif"; "mov"].

(** [isImage(file)]: [IMAGE_EXTS.includes(file.extension.toLowerCase())]. *)
Definition isImage (file : TFile) : bool :=
  existsb (String.eqb (toLowerCase (extension file))) IMAGE_EXTS.

(** The settings tab lists the folders [getIgnoreFolders()] returns and
    redraws itself after every change, so the list a button works on is the
    current one. *)

(** The click on "Add folder" with [newFolder] in the search field:
    [setValue([...currentList, newFolder])]. *)
Definition addFolder (newFolder : string) (settings : ToolKitSettings)
    : ToolKitSettings :=
  withIgnoreGlobalFolder (IgnoreList (getIgnoreFolders settings ++ [newFolder]))
    settings.

(** The click on "Remove" in the row of [ignoreFolder]:
    [setValue(currentList.filter((value) => value !== ignoreFolder))]. *)
Definition removeFolder (ignoreFolder : string) (settings : ToolKitSettings)
    : ToolKitSettings :=
  withIgnoreGlobalFolder
    (IgnoreList
       (List.filter (fun value => negb (String.eqb value ignoreFolder))
          (getIgnoreFolders settings)))
    settings.

(** [w'] is [w] up to the console and the file at path [p], its text and
    the metadata block in it. *)
Definition fileOnly (p : string) (w w' : World) : Prop :=
  (forall q, q <> p -> vaultRead w' q = vaultRead w q)
  /\ (forall q, q <> p -> frontMatterOf w' q = frontMatterOf w q)
  /\ saveFault w' = saveFault w /\ writeBlock w' = writeBlock w
  /\ resolvedLinks w' = resolvedLinks w
  /\ activeFile w' = activeFile w /\ excalidrawAutomate w' = excalidrawAutomate w
  /\ clock w' = clock w /\ notices w' = notices w.

(** ** Sample data *)

Module Sample.

Definition note : TFile :=
  mkTFile "notes/today.md" "today.md" "md" (mkStats 0 1704103560000 120).

(** The settings of E2E-3: key [updated], a window of five minutes. *)
Definition settings : ToolKitSettings :=
  mkSettings "default" false "yyyy-MM-dd'T'HH:mm" "updated" 5 (IgnoreList []).

Definition block : FrontMatter := {[ "updated" := VString "2024-01-01T10:00" ]}.

(** A printer of blocks that prints the timestamp only. *)
Definition printBlock (fm : FrontMatter) (text : string) : string :=
  match fm !! "updated" with
  | Some (VString value) =>
      "---" +:+ String "010" ("updated: " +:+ value +:+ String "010"
      ("---" +:+ String "010" text))
  | _ => text
  end.

Definition world : World :=
  mkWorld (fun _ => Ok "# Today") (fun _ => Ok block) (fun _ => None) printBlock
    [("notes/today.md", [("assets/img 1.png", 1)])] (Some note) None
    1704103570000 [] [].

(** The same note, last saved at 10:04. *)
Definition noteEarlier : TFile :=
  mkTFile "notes/today.md" "today.md" "md" (mkStats 0 1704103440000 120).

Definition blankWorld : World :=
  mkWorld (fun _ => Ok (String " " (String "010" (String "009" " "))))
    (fun _ => Ok block) (fun _ => None) printBlock [] (Some note) None 1704103570000 [] [].

Definition yamlError : Exn := mkExn "YAMLParseError" "Nested mappings are not allowed".

Definition brokenWorld : World :=
  mkWorld (fun _ => Ok "# Today") (fun _ => Throw yamlError) (fun _ => None) printBlock
    [] (Some note) None 1704103570000 [] [].

Definition ioError : Exn := mkExn "Error" "EACCES: permission denied".

Definition readOnlyWorld : World :=
  mkWorld (fun _ => Ok "# Today") (fun _ => Ok block) (fun _ => Some ioError) printBlock
    [] (Some note) None 1704103570000 [] [].

(** The settings of E2E-3 with another pattern. *)
Definition withPattern (dateFormat : string) : ToolKitSettings :=
  mkSettings "default" false dateFormat "updated" 5 (IgnoreList []).

(** Settings whose pattern is a letter date-fns has no meaning for. *)
Definition badPattern : ToolKitSettings :=
  mkSettings "default" false "n" "updated" 5 (IgnoreList []).

Definition editor : Editor :=
  mkEditor ("Before ![[img 1.png]], after ![[photo|My Photo]]." +:+ String "010" "End")
    (mkPos 1 2) None.

(** The pieces of the text of [editor]. *)
Definition pieces : list Piece :=
  [Text "Before "; Embed "img 1.png" None; Text ", after ";
   Embed "photo" (Some "My Photo"); Text ("." +:+ String "010" "End")].

(** A world whose link index has no entry for the active note. *)
Definition unindexedWorld : World :=
  mkWorld (fun _ => Ok "# Today") (fun _ => Ok block) (fun _ => None) printBlock
    [("notes/other.md", [("assets/img 1.png", 1)])] (Some note) None
    1704103570000 [] [].

(** A world whose vault cannot read the note. *)
Definition missingWorld : World :=
  mkWorld (fun _ => Throw ioError) (fun _ => Ok block) (fun _ => None) printBlock
    [] (Some note) None 1704103570000 [] [].




Definition photo : TFile :=
  mkTFile "assets/Photo.PNG" "Photo.PNG" "PNG" (mkStats 0 1704103560000 2048).

End Sample.

(** ** Properties *)

(** *** Settings *)

(** C9: a bare string in [ignoreGlobalFolder] is read as the one-element
    list holding it, by [getIgnoreFolders] and so by the eligibility filter,
    and an absent setting is read as the empty list. *)
Theorem getIgnoreFolders_normalizes :
  forall (settings : ToolKitSettings) (s : string),
    getIgnoreFolders (withIgnoreGlobalFolder (IgnoreString s) settings) = [s]
    /\ getIgnoreFolders (withIgnoreGlobalFolder (IgnoreString s) settings)
       = getIgnoreFolders (withIgnoreGlobalFolder (IgnoreList [s]) settings)
    /\ getIgnoreFolders (withIgnoreGlobalFolder IgnoreUndefined settings) = []
    /\ forall file w,
         shouldFileBeIgnored (withIgnoreGlobalFolder (IgnoreString s) settings) file w
         = shouldFileBeIgnored (withIgnoreGlobalFolder (IgnoreList [s]) settings) file w.
Proof.
  intros settings s. unfold getIgnoreFolders, shouldFileBeIgnored. simpl.
  repeat split.
Qed.

(** *** Running computations *)

Ltac run :=
  unfold bind, ret, lift, gets, modify, tryCatch, consoleError, newNotice; simpl.

Lemma consoleOnly_refl w : consoleOnly w w.
Proof. repeat split. Qed.

Lemma consoleOnly_withConsole entry w : consoleOnly w (withConsole entry w).
Proof. repeat split. Qed.

Lemma consoleOnly_trans w1 w2 w3 :
  consoleOnly w1 w2 -> consoleOnly w2 w3 -> consoleOnly w1 w3.
Proof.
  unfold consoleOnly. intros H12 H23.
  destruct H12 as (?&?&?&?&?&?&?&?&?), H23 as (?&?&?&?&?&?&?&?&?).
  repeat split; congruence.
Qed.

Create HintDb world.

#[local] Hint Resolve consoleOnly_refl consoleOnly_withConsole : world.

Section PluginFacts.

Context {lib : DateLib}.
Variable settings : ToolKitSettings.

Lemma parseDate_number n w :
  parseDate settings (VNumber n) w = (Ok (Some (TimeClip n)), w).
Proof. reflexivity. Qed.

Lemma parseDate_string s w :
  parseDate settings (VString s) w =
  match parse s (dateFormat settings) (TimeClip (clock w)) with
  | Ok (DateAt t) => (Ok (Some (DateAt t)), w)
  | Ok InvalidDate => (Ok None, w)
  | Throw e => (Ok None, withConsole (ErrorExn e) w)
  end.
Proof.
  unfold parseDate. run.
  destruct (parse s (dateFormat settings) (TimeClip (clock w))) as [[|t]|e]; reflexivity.
Qed.

(** [parseDate] returns, and touches nothing but the console. *)
Lemma parseDate_returns v w :
  exists r w', parseDate settings v w = (Ok r, w') /\ consoleOnly w w'.
Proof.
  destruct v; try (eexists _, _; split; [reflexivity | auto with world]).
  rewrite parseDate_string.
  destruct (parse s (dateFormat settings) (TimeClip (clock w))) as [[|t]|e];
    eexists _, _; (split; [reflexivity | auto with world]).
Qed.

Lemma writeTimestamp_consoleOnly d fm w :
  consoleOnly w (snd (writeTimestamp settings d fm w)).
Proof.
  unfold writeTimestamp, formatDate. run.
  destruct (format d (dateFormat settings)); simpl; auto with world.
Qed.

(** The callback touches nothing of the host but the console. *)
Lemma updateFrontMatter_consoleOnly file fm w :
  consoleOnly w (snd (updateFrontMatter settings file fm w)).
Proof.
  unfold updateFrontMatter.
  unfold bind at 1. rewrite parseDate_number.
  unfold bind at 1.
  destruct (parseDate_returns (getKey fm (headerUpdated settings)) w)
    as (r & w' & Hp & Hw).
  rewrite Hp.
  destruct (falsy (getKey fm (headerUpdated settings))), r as [d|];
    try (eapply consoleOnly_trans; [exact Hw | apply writeTimestamp_consoleOnly]).
  destruct (shouldUpdateValue settings (TimeClip (mtime (stat file))) d).
  - eapply consoleOnly_trans; [exact Hw | apply writeTimestamp_consoleOnly].
  - exact Hw.
Qed.

(** The eligibility filter changes nothing. *)
Lemma shouldFileBeIgnored_pure file w :
  snd (shouldFileBeIgnored settings file w) = w.
Proof.
  unfold shouldFileBeIgnored, isExcalidrawFile.
  destruct (String.eqb (path file) ""); [reflexivity|].
  destruct (negb (String.eqb (extension file) "md")); [reflexivity|].
  destruct (String.eqb (name file) "Canvas.md"); [reflexivity|].
  run. destruct (vaultRead w (path file)) as [content|e]; [|reflexivity].
  destruct (String.length (trim content) =? 0)%nat; [reflexivity|].
  destruct (excalidrawAutomate w) as [f|]; simpl; [destruct (f file)|]; reflexivity.
Qed.

(** *** The date parser *)

(** C7: [parseDate] of a number always returns a date, never [undefined];
    [parseDate] of a string that the parser throws on, or that parses to an
    invalid date, returns [undefined] and does not throw. *)
Theorem parseDate_never_throws :
  (forall n w, parseDate settings (VNumber n) w = (Ok (Some (TimeClip n)), w))
  /\ (forall s w e,
        parse s (dateFormat settings) (TimeClip (clock w)) = Throw e ->
        parseDate settings (VString s) w = (Ok None, withConsole (ErrorExn e) w))
  /\ (forall s w,
        parse s (dateFormat settings) (TimeClip (clock w)) = Ok InvalidDate ->
        parseDate settings (VString s) w = (Ok None, w)).
Proof.
  split; [exact parseDate_number|].
  split; intros; rewrite parseDate_string; rewrite H; reflexivity.
Qed.

(** *** The decision of the update engine *)

Lemma writeTimestamp_ok d fm w value :
  format d (dateFormat settings) = Ok value ->
  writeTimestamp settings d fm w
  = (Ok (<[headerUpdated settings := VString value]> fm), w).
Proof. intros Hf. unfold writeTimestamp, formatDate. run. rewrite Hf. reflexivity. Qed.

(** The callback, once the stored value is parsed. *)
Lemma updateFrontMatter_step file fm w r w' :
  parseDate settings (getKey fm (headerUpdated settings)) w = (Ok r, w') ->
  updateFrontMatter settings file fm w =
  match falsy (getKey fm (headerUpdated settings)), r with
  | false, Some stored =>
      if shouldUpdateValue settings (TimeClip (mtime (stat file))) stored
      then writeTimestamp settings (TimeClip (mtime (stat file))) fm w'
      else (Ok fm, w')
  | _, _ => writeTimestamp settings (TimeClip (mtime (stat file))) fm w'
  end.
Proof.
  intros Hp. unfold updateFrontMatter.
  unfold bind at 1. rewrite parseDate_number.
  unfold bind at 1. rewrite Hp.
  destruct (falsy (getKey fm (headerUpdated settings))), r as [stored|]; try reflexivity.
  destruct (shouldUpdateValue settings (TimeClip (mtime (stat file))) stored); reflexivity.
Qed.




Lemma shouldUpdateValue_spec t1 t0 :
  Z.abs t0 <= maxTime -> Z.abs t1 <= maxTime ->
  0 <= minMinutesBetweenSaves settings ->
  shouldUpdateValue settings (DateAt t1) (DateAt t0) = true
  <-> t0 + minMinutesBetweenSaves settings * 60000 < t1.
Proof.
  intros H0 H1 Hm. unfold shouldUpdateValue, DateFns.add_minutes, TimeClip, DateFns.isAfter.
  destruct (Z.leb_spec (Z.abs (t0 + minMinutesBetweenSaves settings * 60 * 1000)) maxTime).
  - rewrite Z.ltb_lt. lia.
  - split; [discriminate|]. lia.
Qed.

(** C1: with a stored value that parses to the valid date [t0] and a file
    time [t1], the callback assigns [formatDate(mTime)] to the key when [t1]
    is strictly after [t0] plus the window, and leaves the block as it is
    when [t1] is at or before that instant. *)
Theorem debounce_is_strict :
  forall file fm w w' t0 t1 value,
    falsy (getKey fm (headerUpdated settings)) = false ->
    parseDate settings (getKey fm (headerUpdated settings)) w
    = (Ok (Some (DateAt t0)), w') ->
    Z.abs t0 <= maxTime ->
    TimeClip (mtime (stat file)) = DateAt t1 ->
    0 <= minMinutesBetweenSaves settings ->
    format (DateAt t1) (dateFormat settings) = Ok value ->
    (t0 + minMinutesBetweenSaves settings * 60000 < t1 ->
       updateFrontMatter settings file fm w
       = (Ok (<[headerUpdated settings := VString value]> fm), w'))
    /\ (t1 <= t0 + minMinutesBetweenSaves settings * 60000 ->
       updateFrontMatter settings file fm w = (Ok fm, w')).
Proof.
  intros file fm w w' t0 t1 value Htruthy Hp H0 Ht1 Hm Hf.
  assert (H1 : Z.abs t1 <= maxTime).
  { unfold TimeClip in Ht1.
    destruct (Z.leb_spec (Z.abs (mtime (stat file))) maxTime); congruence. }
  rewrite (updateFrontMatter_step file fm w _ w' Hp), Htruthy, Ht1.
  pose proof (shouldUpdateValue_spec t1 t0 H0 H1 Hm) as Hspec.
  destruct (shouldUpdateValue settings (DateAt t1) (DateAt t0)).
  - split; intros Hcmp.
    + apply writeTimestamp_ok, Hf.
    + assert (t0 + minMinutesBetweenSaves settings * 60000 < t1) by (apply Hspec; reflexivity).
      lia.
  - split; intros Hcmp.
    + apply Hspec in Hcmp. discriminate.
    + reflexivity.
Qed.

(** *** The eligibility filter *)

Lemma trimStart_allWhiteSpace s : allWhiteSpace s = true -> trimStart s = "".
Proof.
  induction s as [|c s IH]; simpl; [reflexivity|].
  intros [Hc Hs]%andb_prop. rewrite Hc. auto.
Qed.

Lemma trim_allWhiteSpace s : allWhiteSpace s = true -> trim s = "".
Proof. intros H. unfold trim. rewrite (trimStart_allWhiteSpace s H). reflexivity. Qed.

Lemma shouldFileBeIgnored_rejected file w :
  Rejected settings w file -> shouldFileBeIgnored settings file w = (Ok true, w).
Proof.
  intros Hrej. unfold shouldFileBeIgnored, isExcalidrawFile.
  destruct (String.eqb_spec (path file) "") as [|Hpath]; [reflexivity|].
  destruct (String.eqb_spec (extension file) "md") as [Hext|]; [|reflexivity].
  destruct (String.eqb_spec (name file) "Canvas.md") as [|Hname]; [reflexivity|].
  simpl. run.
  destruct Hrej as [H|H|H|content Hread Hblank|content f Hread Hea Hf
                   |content item Hread Hin Hprefix]; try contradiction.
  - rewrite Hread, (trim_allWhiteSpace content Hblank). reflexivity.
  - rewrite Hread.
    destruct (String.length (trim content) =? 0)%nat; [reflexivity|].
    cbv beta. rewrite Hea, Hf. reflexivity.
  - rewrite Hread.
    destruct (String.length (trim content) =? 0)%nat; [reflexivity|].
    cbv beta. destruct (excalidrawAutomate w) as [f|]; simpl; [destruct (f file); [reflexivity|]|];
      repeat f_equal; apply existsb_exists; exists item; auto.
Qed.

(** A folder is not a file: the change is ignored. *)
Lemma folder_is_ignored folderPath folderName w :
  handleFileChange settings (AFolder folderPath folderName) w = (Ok StatusIgnored, w).
Proof. reflexivity. Qed.

(** C3: a file the eligibility filter rejects is reported [ignored] and
    nothing of the host changes: no metadata block, no notice, whatever the
    stored timestamp, the file time and the window are. *)
Theorem rejected_file_is_ignored :
  forall file w,
    Rejected settings w file ->
    handleFileChange settings (AFile file) w = (Ok StatusIgnored, w).
Proof.
  intros file w Hrej. unfold handleFileChange. simpl.
  unfold bind. rewrite (shouldFileBeIgnored_rejected file w Hrej). reflexivity.
Qed.

(** *** Failures of the metadata primitive *)

(** The primitive, when it throws, has written nothing. *)
Lemma processFrontMatter_throws file w e w1 :
  processFrontMatter file (updateFrontMatter settings file) w = (Throw e, w1) ->
  consoleOnly w w1.
Proof.
  unfold processFrontMatter. unfold bind at 1.
  destruct (frontMatterOf w (path file)) as [fm|e0].
  - unfold bind at 1.
    pose proof (updateFrontMatter_consoleOnly file fm w) as Hw.
    destruct (updateFrontMatter settings file fm w) as [[fm'|e1] w2]; simpl in *.
    + run. destruct (saveFault w2 (path file)); simpl; intros [= <- <-]. exact Hw.
    + intros [= <- <-]. exact Hw.
  - intros [= <- <-]. apply consoleOnly_refl.
Qed.

Lemma handleFileChange_eligible file w :
  shouldFileBeIgnored settings file w = (Ok false, w) ->
  handleFileChange settings (AFile file) w =
  match processFrontMatter file (updateFrontMatter settings file) w with
  | (Ok _, w1) => (Ok StatusOk, w1)
  | (Throw e, w1) =>
      if String.eqb (exn_name e) "YAMLParseError" then
        (Ok (StatusError e),
         withConsole (ErrorText (errorMessage file e))
           (withNotice (errorMessage file e) 4000 w1))
      else (Ok StatusOk, w1)
  end.
Proof.
  intros Hel. unfold handleFileChange. simpl.
  unfold bind at 1. rewrite Hel.
  unfold bind at 1. unfold tryCatch. unfold bind at 1.
  destruct (processFrontMatter file (updateFrontMatter settings file) w) as [[[]|e] w1];
    simpl; [reflexivity|].
  destruct (String.eqb (exn_name e) "YAMLParseError"); reflexivity.
Qed.

(** A run that writes: the block of an eligible file parses, the callback
    returns and the host saves what it returned. *)
Lemma handleFileChange_saves file w fm fm' w' :
  shouldFileBeIgnored settings file w = (Ok false, w) ->
  frontMatterOf w (path file) = Ok fm ->
  updateFrontMatter settings file fm w = (Ok fm', w') ->
  saveFault w' (path file) = None ->
  handleFileChange settings (AFile file) w
  = (Ok StatusOk, withFrontMatter (path file) fm' w').
Proof.
  intros Hel Hfm Hcb Hsave.
  rewrite (handleFileChange_eligible file w Hel).
  unfold processFrontMatter. unfold bind at 1. rewrite Hfm.
  unfold bind at 1. rewrite Hcb. run. rewrite Hsave. reflexivity.
Qed.

(** C4: when the metadata primitive throws an exception named
    [YAMLParseError] on an eligible file, [handleFileChange] returns the
    error outcome carrying it and shows one notice whose text names the
    file's path and ends with the exception's message; no metadata block has
    been written. *)
Theorem parse_error_is_reported :
  forall file w e w1,
    shouldFileBeIgnored settings file w = (Ok false, w) ->
    processFrontMatter file (updateFrontMatter settings file) w = (Throw e, w1) ->
    exn_name e = "YAMLParseError" ->
    exists w2,
      handleFileChange settings (AFile file) w = (Ok (StatusError e), w2)
      /\ notices w2 = notices w ++ [(errorMessage file e, 4000)]
      /\ (exists before between,
            errorMessage file e
            = before +:+ path file +:+ between +:+ exn_message e)
      /\ frontMatterOf w2 = frontMatterOf w.
Proof.
  intros file w e w1 Hel Hthrow Hname.
  pose proof (processFrontMatter_throws file w e w1 Hthrow) as Hw.
  rewrite (handleFileChange_eligible file w Hel), Hthrow, Hname. simpl.
  eexists. split; [reflexivity|].
  destruct Hw as (_ & Hfm & _ & _ & _ & _ & _ & _ & Hnot).
  split; [simpl; rewrite Hnot; reflexivity|].
  split; [|exact Hfm].
  exists ("Update time on edit failed" +:+ String "010" (String "009"
          "Malformed frontamtter on this file : ")),
         (String "010" (String "009" (String "010" (String "009" "")))).
  unfold errorMessage. reflexivity.
Qed.

(** C10: when the metadata primitive throws an exception with any other
    name, [handleFileChange] returns [ok]; no notice is shown, nothing is
    added to the console by the handler, and no metadata block has been
    written. *)
Theorem other_exception_is_swallowed :
  forall file w e w1,
    shouldFileBeIgnored settings file w = (Ok false, w) ->
    processFrontMatter file (updateFrontMatter settings file) w = (Throw e, w1) ->
    exn_name e <> "YAMLParseError" ->
    handleFileChange settings (AFile file) w = (Ok StatusOk, w1)
    /\ notices w1 = notices w
    /\ frontMatterOf w1 = frontMatterOf w.
Proof.
  intros file w e w1 Hel Hthrow Hname.
  pose proof (processFrontMatter_throws file w e w1 Hthrow) as Hw.
  rewrite (handleFileChange_eligible file w Hel), Hthrow.
  destruct (String.eqb_spec (exn_name e) "YAMLParseError") as [|_]; [contradiction|].
  destruct Hw as (_ & Hfm & _ & _ & _ & _ & _ & _ & Hnot). auto.
Qed.

End PluginFacts.

(** *** The properties at sample inputs *)

Lemma parseDate_never_throws_witness :
  parseDate (lib := dateFns 0) Sample.badPattern (VString "2024") Sample.world
  = (Ok None, withConsole (ErrorExn DateFns.unescapedLetter) Sample.world)
  /\ parseDate (lib := dateFns 0) Sample.settings (VString "last week") Sample.world
     = (Ok None, Sample.world).
Proof.
  split.
  - apply (proj1 (proj2 (@parseDate_never_throws (dateFns 0) Sample.badPattern))).
    reflexivity.
  - apply (proj2 (proj2 (@parseDate_never_throws (dateFns 0) Sample.settings))).
    reflexivity.
Defined.



Lemma debounce_is_strict_witness :
  updateFrontMatter (lib := dateFns 0) Sample.settings Sample.note
    Sample.block Sample.world
  = (Ok (<["updated" := VString "2024-01-01T10:06"]> Sample.block), Sample.world)
  /\ updateFrontMatter (lib := dateFns 0) Sample.settings Sample.noteEarlier
       Sample.block Sample.world
     = (Ok Sample.block, Sample.world).
Proof.
  split.
  - apply (@debounce_is_strict (dateFns 0) Sample.settings Sample.note Sample.block
             Sample.world Sample.world 1704103200000 1704103560000
             "2024-01-01T10:06");
      try reflexivity; vm_compute; congruence.
  - apply (@debounce_is_strict (dateFns 0) Sample.settings Sample.noteEarlier
             Sample.block Sample.world Sample.world 1704103200000 1704103440000
             "2024-01-01T10:04");
      try reflexivity; vm_compute; congruence.
Defined.

Lemma rejected_file_is_ignored_witness :
  handleFileChange (lib := dateFns 0) Sample.settings (AFile Sample.note)
    Sample.blankWorld
  = (Ok StatusIgnored, Sample.blankWorld).
Proof.
  apply (@rejected_file_is_ignored (dateFns 0) Sample.settings Sample.note
           Sample.blankWorld).
  eapply rejected_blank; reflexivity.
Defined.

Lemma parse_error_is_reported_witness :
  exists w2,
    handleFileChange (lib := dateFns 0) Sample.settings (AFile Sample.note)
      Sample.brokenWorld
    = (Ok (StatusError Sample.yamlError), w2)
    /\ notices w2
       = notices Sample.brokenWorld
         ++ [(errorMessage Sample.note Sample.yamlError, 4000)]
    /\ (exists before between,
          errorMessage Sample.note Sample.yamlError
          = before +:+ path Sample.note +:+ between
            +:+ exn_message Sample.yamlError)
    /\ frontMatterOf w2 = frontMatterOf Sample.brokenWorld.
Proof.
  apply (@parse_error_is_reported (dateFns 0) Sample.settings Sample.note
           Sample.brokenWorld Sample.yamlError Sample.brokenWorld);
    reflexivity.
Defined.

Lemma other_exception_is_swallowed_witness :
  handleFileChange (lib := dateFns 0) Sample.settings (AFile Sample.note)
    Sample.readOnlyWorld
  = (Ok StatusOk, Sample.readOnlyWorld)
  /\ notices Sample.readOnlyWorld = notices Sample.readOnlyWorld
  /\ frontMatterOf Sample.readOnlyWorld = frontMatterOf Sample.readOnlyWorld.
Proof.
  apply (@other_exception_is_swallowed (dateFns 0) Sample.settings Sample.note
           Sample.readOnlyWorld Sample.ioError Sample.readOnlyWorld).
  - reflexivity.
  - reflexivity.
  - vm_compute. congruence.
Defined.

(** E2E-3, from the event to the stored block: at 10:06 the handler
    returns [ok] and the block holds the new timestamp; at 10:04 it returns
    [ok] and the block is the one it was. *)
Example handleFileChange_debounce :
  handleFileChange (lib := dateFns 0) Sample.settings (AFile Sample.note)
    Sample.world
  = (Ok StatusOk,
     withFrontMatter "notes/today.md"
       (<["updated" := VString "2024-01-01T10:06"]> Sample.block) Sample.world)
  /\ handleFileChange (lib := dateFns 0) Sample.settings (AFile Sample.noteEarlier)
       Sample.world
     = (Ok StatusOk, withFrontMatter "notes/today.md" Sample.block Sample.world).
Proof.
  split.
  - apply (@handleFileChange_saves (dateFns 0) Sample.settings Sample.note
             Sample.world Sample.block);
      reflexivity.
  - apply (@handleFileChange_saves (dateFns 0) Sample.settings Sample.noteEarlier
             Sample.world Sample.block);
      reflexivity.
Qed.

(** *** The link normalizer *)

Lemma getFiles_loop_none file entries :
  (forall links, ~ In (path file, links) entries) ->
  getFiles_loop (Some file) entries = Ok None.
Proof.
  induction entries as [|[mdFile links] entries IH]; intros Hno; simpl; [reflexivity|].
  destruct (String.eqb_spec (path file) mdFile) as [Heq|_].
  - exfalso. apply (Hno links). left. rewrite Heq. reflexivity.
  - apply IH. intros links' Hin. apply (Hno links'). right. exact Hin.
Qed.

(** C8: when the link index has no entry for the active document, the
    command returns with the text of the editor as it was. *)
Theorem no_index_entry_no_rewrite :
  forall w editor file,
    activeFile w = Some file ->
    (forall links, ~ In (path file, links) (resolvedLinks w)) ->
    exists editor',
      renameAllImageUrl w editor = Ok editor'
      /\ editorValue editor' = editorValue editor.
Proof.
  intros w editor file Hactive Hno.
  unfold renameAllImageUrl, getFiles. rewrite Hactive.
  rewrite (getFiles_loop_none file (resolvedLinks w) Hno).
  eexists. split; reflexivity.
Qed.

Lemma no_index_entry_no_rewrite_witness :
  exists editor',
    renameAllImageUrl Sample.unindexedWorld Sample.editor = Ok editor'
    /\ editorValue editor' = editorValue Sample.editor.
Proof.
  apply (no_index_entry_no_rewrite Sample.unindexedWorld Sample.editor Sample.note).
  - reflexivity.
  - intros links [H | []]. discriminate H.
Defined.

Lemma string_length_app a b :
  String.length (a +:+ b) = (String.length a + String.length b)%nat.
Proof. induction a as [|c a IH]; simpl; [reflexivity | rewrite IH; reflexivity]. Qed.

Lemma string_app_assoc a b c : (a +:+ b) +:+ c = a +:+ (b +:+ c).
Proof. induction a as [|x a IH]; simpl; [reflexivity | rewrite IH; reflexivity]. Qed.

Lemma string_app_nil_r s : s +:+ "" = s.
Proof. induction s as [|c s IH]; simpl; [reflexivity | rewrite IH; reflexivity]. Qed.

Lemma takeString_app a b : takeString (String.length a) (a +:+ b) = a.
Proof. induction a as [|c a IH]; simpl; [destruct b; reflexivity | rewrite IH; reflexivity]. Qed.

Lemma consumed_app a b : consumed (a +:+ b) b = a.
Proof.
  unfold consumed. rewrite string_length_app.
  replace (String.length a + String.length b - String.length b)%nat
    with (String.length a) by lia.
  apply takeString_app.
Qed.

Lemma starNoneOf_greedy {R} cs run rest (k : string -> option R) x :
  allChars (noneOf cs) run = true ->
  startsOutside cs rest ->
  k rest = Some x ->
  starNoneOf cs (run +:+ rest) k = Some x.
Proof.
  intros Hrun Hrest Hk. induction run as [|c run IH]; simpl in *.
  - destruct rest as [|c rest]; simpl in *; [exact Hk|]. rewrite Hrest. exact Hk.
  - apply andb_prop in Hrun as [Hc Hrun]. rewrite Hc, (IH Hrun). reflexivity.
Qed.

Lemma embedText_app ref alias post :
  embedText ref alias +:+ post
  = String "!" (String "[" (String "[" (ref +:+ embedTail alias post))).
Proof.
  unfold embedText, embedTail. simpl. rewrite !string_app_assoc.
  destruct alias as [a|]; reflexivity.
Qed.


Lemma rmatch_char_hit {R} c s caps (k : string -> Captures -> option R) :
  rmatch (RChar c) (String c s) caps k = k s caps.
Proof. simpl. rewrite Ascii.eqb_refl. reflexivity. Qed.

Lemma rmatch_char_miss {R} c c' s caps (k : string -> Captures -> option R) :
  c <> c' -> rmatch (RChar c) (String c' s) caps k = None.
Proof. intros Hne. simpl. destruct (Ascii.eqb_spec c c'); [contradiction | reflexivity]. Qed.

Lemma rmatch_seq {R} r1 r2 s caps (k : string -> Captures -> option R) :
  rmatch (RSeq r1 r2) s caps k
  = rmatch r1 s caps (fun rest caps' => rmatch r2 rest caps' k).
Proof. reflexivity. Qed.

Lemma rmatch_group {R} n r s caps (k : string -> Captures -> option R) :
  rmatch (RGroup n r) s caps k
  = rmatch r s caps (fun rest caps' => k rest ((n, consumed s rest) :: caps')).
Proof. reflexivity. Qed.

Lemma rmatch_opt_take {R} r s caps (k : string -> Captures -> option R) x :
  rmatch r s caps k = Some x -> rmatch (ROpt r) s caps k = Some x.
Proof. intros H. simpl. rewrite H. reflexivity. Qed.

Lemma rmatch_opt_skip {R} r s caps (k : string -> Captures -> option R) :
  rmatch r s caps k = None -> rmatch (ROpt r) s caps k = k s caps.
Proof. intros H. simpl. rewrite H. reflexivity. Qed.

Lemma rmatch_plus_greedy {R} cs run rest caps (k : string -> Captures -> option R) x :
  nonEmpty run = true ->
  allChars (noneOf cs) run = true ->
  startsOutside cs rest ->
  k rest caps = Some x ->
  rmatch (RPlusNoneOf cs) (run +:+ rest) caps k = Some x.
Proof.
  intros Hne Hrun Hrest Hk. destruct run as [|c run]; [discriminate|].
  simpl in *. apply andb_prop in Hrun as [Hc Hrun]. rewrite Hc.
  apply starNoneOf_greedy; assumption.
Qed.

Ltac rstep :=
  cbv beta;
  first [ rewrite rmatch_seq | rewrite rmatch_char_hit | rewrite rmatch_group ].

Lemma matchHere_embed ref alias post :
  isRef ref = true ->
  (forall a, alias = Some a -> isAlias a = true) ->
  matchHere embedPattern (embedText ref alias +:+ post)
  = Some (embedCaptures ref alias, post).
Proof.
  intros Href Halias. rewrite embedText_app.
  apply andb_prop in Href as [Hne Href].
  unfold matchHere. cbv [embedPattern rseq].
  do 8 rstep.
  apply rmatch_plus_greedy; [assumption | assumption | destruct alias; reflexivity |].
  rewrite consumed_app. rstep.
  destruct alias as [a|]; unfold embedTail, embedCaptures.
  - apply rmatch_opt_take. do 3 rstep.
    specialize (Halias a eq_refl). apply andb_prop in Halias as [Hane Ha].
    apply rmatch_plus_greedy; [assumption | assumption | reflexivity |].
    rewrite consumed_app. do 3 rstep. reflexivity.
  - rewrite rmatch_opt_skip.
    + do 3 rstep. reflexivity.
    + rstep. apply rmatch_char_miss. discriminate.
Qed.

#[local] Arguments matchHere : simpl never.

Lemma replaceAll_go_skip r f m rest :
  replaceAll_go r f (String.length m) (m +:+ rest) = replaceAll_go r f 0 rest.
Proof. induction m as [|c m IH]; simpl; [reflexivity | exact IH]. Qed.

Lemma replaceAll_go_match r f c m rest caps :
  matchHere r (String c m +:+ rest) = Some (caps, rest) ->
  replaceAll_go r f 0 (String c m +:+ rest) = f caps +:+ replaceAll_go r f 0 rest.
Proof.
  intros Hm. simpl. simpl in Hm. rewrite Hm.
  rewrite string_length_app.
  replace (S (String.length m + String.length rest) - String.length rest)%nat
    with (S (String.length m)) by lia.
  rewrite replaceAll_go_skip. reflexivity.
Qed.

Lemma replaceAll_go_pre f pre tail :
  noMatchStartsIn pre tail = true ->
  replaceAll_go embedPattern f 0 (pre +:+ tail)
  = pre +:+ replaceAll_go embedPattern f 0 tail.
Proof.
  induction pre as [|c pre IH]; intros Hno; [reflexivity|].
  simpl in *.
  destruct (matchHere embedPattern (String c (pre +:+ tail))); [discriminate|].
  rewrite (IH Hno). reflexivity.
Qed.

Lemma resolveUrl_find files url :
  resolveUrl files url
  = match find (fun entry => includes (fst entry) url) files with
    | Some entry => fst entry
    | None => url
    end.
Proof.
  induction files as [|[filePath nr] files IH]; simpl; [reflexivity|].
  destruct (includes filePath url); [reflexivity | exact IH].
Qed.

Lemma replaceFirstSpace_first a b :
  allChars notSpace a = true ->
  replaceFirstSpace (a +:+ String " " b) = a +:+ "%20" +:+ b.
Proof.
  induction a as [|c a IH]; simpl; [reflexivity|].
  unfold notSpace at 1. intros [Hc Ha]%andb_prop.
  destruct (Ascii.eqb c " "); [discriminate|]. rewrite (IH Ha). reflexivity.
Qed.

Lemma replaceFirstSpace_none a :
  allChars notSpace a = true -> replaceFirstSpace a = a.
Proof.
  induction a as [|c a IH]; simpl; [reflexivity|].
  unfold notSpace at 1. intros [Hc Ha]%andb_prop.
  destruct (Ascii.eqb c " "); [discriminate|]. rewrite (IH Ha). reflexivity.
Qed.

Lemma embedReplacer_embed files ref alias :
  embedReplacer files (embedCaptures ref alias)
  = "![" +:+ default "" alias +:+ "](" +:+ replaceFirstSpace (resolveUrl files ref) +:+ ")".
Proof. destruct alias; reflexivity. Qed.

Lemma newContent_embed files pre ref alias post :
    isRef ref = true ->
    (forall a, alias = Some a -> isAlias a = true) ->
    noMatchStartsIn pre (embedText ref alias +:+ post) = true ->
    newContent files (pre +:+ embedText ref alias +:+ post)
    = pre +:+ "![" +:+ default "" alias +:+ "]("
      +:+ replaceFirstSpace (resolveUrl files ref) +:+ ")" +:+ newContent files post.
Proof.
  intros Href Halias Hpre. unfold newContent, replaceAll.
  rewrite (replaceAll_go_pre _ pre _ Hpre). f_equal.
  pose proof (matchHere_embed ref alias post Href Halias) as Hm.
  assert (Hshape : exists m, embedText ref alias = String "!" m)
    by (eexists; reflexivity).
  destruct Hshape as [m Hshape]. rewrite Hshape in *.
  rewrite (replaceAll_go_match _ _ _ _ _ _ Hm), embedReplacer_embed.
  simpl. repeat (rewrite string_app_assoc; simpl). reflexivity.
Qed.

(** No match starts in a text without [!]. *)
Lemma noMatchStartsIn_plain pre tail :
  allChars (noneOf ["!"%char]) pre = true -> noMatchStartsIn pre tail = true.
Proof.
  induction pre as [|c pre IH]; simpl; [reflexivity|].
  intros [Hc Hpre]%andb_prop.
  assert (Hmiss : matchHere embedPattern (String c (pre +:+ tail)) = None).
  { unfold matchHere. cbv [embedPattern rseq]. rewrite rmatch_seq.
    apply rmatch_char_miss. intros <-. discriminate Hc. }
  rewrite Hmiss. exact (IH Hpre).
Qed.

(** A document without [!] is rewritten to itself. *)
Lemma newContent_plain files doc :
  allChars (noneOf ["!"%char]) doc = true -> newContent files doc = doc.
Proof.
  intros Hdoc. unfold newContent, replaceAll.
  rewrite <- (string_app_nil_r doc) at 1.
  rewrite (replaceAll_go_pre _ doc "" (noMatchStartsIn_plain doc "" Hdoc)).
  simpl. apply string_app_nil_r.
Qed.

Lemma renameAllImageUrl_indexed w editor files :
  getFiles w = Ok (Some files) ->
  exists editor',
    renameAllImageUrl w editor = Ok editor'
    /\ editorValue editor' = newContent files (editorValue editor).
Proof.
  intros Hfiles. unfold renameAllImageUrl. rewrite Hfiles.
  eexists. split; reflexivity.
Qed.

Lemma newContent_pieces files pieces :
  wellFormed pieces = true ->
  newContent files (source pieces) = target files pieces.
Proof.
  induction pieces as [|[s|ref alias] pieces IH]; intros Hwf.
  - reflexivity.
  - simpl in Hwf. apply andb_prop in Hwf as [Hpre Hwf].
    simpl. unfold newContent, replaceAll in *.
    rewrite (replaceAll_go_pre _ s _ Hpre), (IH Hwf). reflexivity.
  - simpl in Hwf. apply andb_prop in Hwf as [Hwf Hrest].
    apply andb_prop in Hwf as [Href Halias].
    simpl source. simpl target.
    pose proof (newContent_embed files "" ref alias (source pieces) Href) as Hstep.
    simpl in Hstep. rewrite Hstep.
    + rewrite (IH Hrest). unfold inlineLink, resolvedPath.
      rewrite resolveUrl_find. repeat (rewrite string_app_assoc; simpl). reflexivity.
    + intros a ->. exact Halias.
    + reflexivity.
Qed.

(** C5: when the index has an entry for the active document, the command
    rewrites every embed [![[ref]]] or [![[ref|alias]]] of the document to
    [![alias](url)], with the empty alias when there is none, and keeps the
    text between the embeds; [url] is the first target path of the index, in
    iteration order, that includes [ref], or [ref] when there is none, with
    its first space, and only that one, replaced by [%20]. *)
Theorem embed_is_rewritten :
  forall w editor files pieces,
    getFiles w = Ok (Some files) ->
    editorValue editor = source pieces ->
    wellFormed pieces = true ->
    (exists editor',
       renameAllImageUrl w editor = Ok editor'
       /\ editorValue editor' = target files pieces)
    /\ (forall url a b,
          allChars notSpace a = true -> url = a +:+ String " " b ->
          replaceFirstSpace url = a +:+ "%20" +:+ b)
    /\ (forall url, allChars notSpace url = true -> replaceFirstSpace url = url).
Proof.
  intros w editor files pieces Hfiles Hdoc Hwf.
  split; [|split].
  - destruct (renameAllImageUrl_indexed w editor files Hfiles) as (editor' & Hrun & Hval).
    exists editor'. split; [exact Hrun|].
    rewrite Hval, Hdoc. apply newContent_pieces, Hwf.
  - intros url a b Ha ->. apply replaceFirstSpace_first, Ha.
  - intros url. apply replaceFirstSpace_none.
Qed.

Lemma embed_is_rewritten_witness :
  exists editor',
    renameAllImageUrl Sample.world Sample.editor = Ok editor'
    /\ editorValue editor'
       = "Before ![](assets/img%201.png), after ![My Photo](photo)."
         +:+ String "010" "End".
Proof.
  destruct (embed_is_rewritten Sample.world Sample.editor
              [("assets/img 1.png", 1)] Sample.pieces)
    as [(editor' & Hrun & Hval) _].
  - reflexivity.
  - reflexivity.
  - reflexivity.
  - exists editor'. split; [exact Hrun | rewrite Hval; reflexivity].
Defined.

(** E2E-1 and E2E-2. *)
Example newContent_e2e :
  newContent [("img 1.png", 1)] "![[img 1.png]]" = "![](img%201.png)"
  /\ newContent [("assets/img 1.png", 1)] "![[photo|My Photo]]" = "![My Photo](photo)"
  /\ newContent [("a b c.png", 2)] "![[a b c.png]]" = "![](a%20b c.png)".
Proof. repeat split. Qed.

(** *** The date round trip *)

(** A time value within the range of [Date] is a date. *)
Lemma TimeClip_valid t : TimeClip t = DateAt t -> Z.abs t <= maxTime.
Proof.
  unfold TimeClip. destruct (Z.leb_spec (Z.abs t) maxTime); [auto | discriminate].
Qed.

Lemma TimeClip_of_valid t : Z.abs t <= maxTime -> TimeClip t = DateAt t.
Proof.
  unfold TimeClip. destruct (Z.leb_spec (Z.abs t) maxTime); [reflexivity | lia].
Qed.

Section DateRoundTrip.

Import DateFns.

Lemma allFrom_spec n p : forall i j,
  allFrom n i p = true -> i <= j < i + Z.of_nat n -> p j = true.
Proof.
  induction n as [|n IH]; intros i j H Hj; [lia|].
  simpl in H. apply andb_prop in H as [Hi Hrest].
  destruct (Z.eq_dec i j) as [<-|Hne]; [exact Hi|].
  apply (IH (i + 1)); [exact Hrest | lia].
Qed.

Lemma parseNDigits_go_exact ds : forall n acc v rest,
  String.length ds = n -> digitsValue ds acc = Some v ->
  parseNDigits_go n (ds +:+ rest) acc = (v, rest).
Proof.
  induction ds as [|c ds IH]; intros n acc v rest Hlen Hval; simpl in *.
  - subst n. injection Hval as <-. destruct rest; reflexivity.
  - subst n. simpl. destruct (digitValue c) as [d|]; [|discriminate].
    apply IH; [reflexivity | exact Hval].
Qed.

Lemma parseNDigits_exact c ds n v rest :
  String.length (String c ds) = n -> digitsValue (String c ds) 0 = Some v ->
  parseNDigits n (String c ds +:+ rest) = Some (v, rest).
Proof.
  intros Hlen Hval. unfold parseNDigits.
  change (String c ds +:+ rest) with (String c (ds +:+ rest)).
  cbv iota beta.
  assert (Hd : exists d, digitValue c = Some d).
  { simpl in Hval. destruct (digitValue c); [eauto | discriminate]. }
  destruct Hd as [d Hd]. rewrite Hd.
  change (String c (ds +:+ rest)) with (String c ds +:+ rest).
  f_equal. apply parseNDigits_go_exact; assumption.
Qed.

Lemma printsExactly_2 : allFrom (Z.to_nat 100) 0 (printsExactly 2) = true.
Proof. vm_compute. reflexivity. Qed.

Lemma printsExactly_4 : allFrom (Z.to_nat 10000) 0 (printsExactly 4) = true.
Proof. vm_compute. reflexivity. Qed.

Lemma parseNDigits_addLeadingZeros n v rest :
  printsExactly n v = true ->
  parseNDigits n (addLeadingZeros v n +:+ rest) = Some (v, rest).
Proof.
  unfold printsExactly. intros H.
  apply andb_prop in H as [H Hne]. apply andb_prop in H as [Hlen Hval].
  destruct (addLeadingZeros v n) as [|c ds] eqn:Hs; [discriminate|].
  apply Nat.eqb_eq in Hlen.
  destruct (digitsValue (String c ds) 0) as [v'|] eqn:Hv; [|discriminate].
  apply Z.eqb_eq in Hval. subst v'.
  apply parseNDigits_exact; assumption.
Qed.

Lemma DayFromYear_succ y : DayFromYear (y + 1) = DayFromYear y + DaysInYear y.
Proof.
  unfold DayFromYear, DaysInYear, isLeapYear.
  destruct (Z.eqb_spec (y mod 4) 0), (Z.eqb_spec (y mod 100) 0),
    (Z.eqb_spec (y mod 400) 0);
    cbn [andb orb negb]; cbv iota; Z.to_euclidean_division_equations; lia.
Qed.

Lemma DayFromYear_mono y1 y2 : y1 <= y2 -> DayFromYear y1 <= DayFromYear y2.
Proof. unfold DayFromYear. intros H. Z.to_euclidean_division_equations. lia. Qed.

Lemma YearFromDay_spec day :
  DayFromYear (YearFromDay day) <= day < DayFromYear (YearFromDay day + 1).
Proof.
  unfold YearFromDay.
  set (y := 1970 + day * 400 / 146097).
  destruct (Z.ltb_spec day (DayFromYear y)).
  - split.
    + unfold DayFromYear in *. unfold y in *. Z.to_euclidean_division_equations. lia.
    + replace (y - 1 + 1) with y by lia. lia.
  - destruct (Z.leb_spec (DayFromYear (y + 1)) day).
    + split; [lia|].
      unfold DayFromYear in *. unfold y in *. Z.to_euclidean_division_equations. lia.
    + lia.
Qed.

Lemma DayWithinYear_range day :
  0 <= DayWithinYear day < 365 + leapDay (YearFromDay day).
Proof.
  unfold DayWithinYear, leapDay.
  pose proof (YearFromDay_spec day) as H.
  rewrite DayFromYear_succ in H. unfold DaysInYear in H.
  destruct (isLeapYear (YearFromDay day)); lia.
Qed.

(** The calendar date of a day number is a date of the calendar, and
    [days_from_civil] takes it back to the day number. *)
Lemma civil_from_days_spec day :
  1 <= MonthFromDay day <= 12
  /\ 1 <= DateFromDay day <= daysInMonth (YearFromDay day) (MonthFromDay day)
  /\ days_from_civil (YearFromDay day) (MonthFromDay day) (DateFromDay day) = day.
Proof.
  pose proof (DayWithinYear_range day) as Hd.
  unfold days_from_civil, DateFromDay, MonthFromDay, daysInMonth.
  unfold leapDay in *. unfold DayWithinYear in *.
  set (y := YearFromDay day) in *.
  set (d := day - DayFromYear y) in *.
  destruct (isLeapYear y);
  repeat match goal with
         | |- context [?a <? ?b] => destruct (Z.ltb_spec a b)
         end;
  cbn; lia.
Qed.

(** A year from 1 to 9999 bounds the day number. *)
Lemma YearFromDay_bounds day :
  1 <= YearFromDay day <= 9999 ->
  DayFromYear 1 <= day < DayFromYear 10000.
Proof.
  intros [Hlo Hhi]. pose proof (YearFromDay_spec day) as [H1 H2].
  pose proof (DayFromYear_mono 1 (YearFromDay day) Hlo).
  pose proof (DayFromYear_mono (YearFromDay day + 1) 10000 ltac:(lia)).
  lia.
Qed.


Lemma field_eqb_eq f g : field_eqb f g = true <-> f = g.
Proof. destruct f, g; simpl; split; congruence. Qed.

Lemma field_eqb_refl f : field_eqb f f = true.
Proof. destruct f; reflexivity. Qed.

Lemma prefix_app a b : String.prefix a (a +:+ b) = true.
Proof.
  induction a as [|c a IH]; simpl; [destruct b; reflexivity|].
  destruct (ascii_dec c c); [exact IH | contradiction].
Qed.

Lemma dropString_app a b : dropString (String.length a) (a +:+ b) = b.
Proof. induction a as [|c a IH]; simpl; [destruct b; reflexivity | exact IH]. Qed.

Lemma existsb_field_false f g used :
  existsb (field_eqb g) used = false -> field_eqb g f = false ->
  existsb (field_eqb g) (f :: used) = false.
Proof. intros H1 H2. simpl. rewrite H1, H2. reflexivity. Qed.

Lemma scanTokens_format x toks : forall used values rest,
  (forall f, In f (fieldsOf toks) ->
             printsExactly (fieldWidth f) (fieldValue f x) = true) ->
  distinctFields (fieldsOf toks) = true ->
  (forall f, In f (fieldsOf toks) -> existsb (field_eqb f) used = false) ->
  scanTokens toks used (formatTokens x toks +:+ rest) values
  = Scanned (values ++ map (fun f => (f, fieldValue f x)) (fieldsOf toks)) rest.
Proof.
  induction toks as [|[f|text] toks IH]; intros used values rest Hprint Hdist Hused.
  - simpl. rewrite app_nil_r. reflexivity.
  - simpl fieldsOf in *. simpl in Hdist. apply andb_prop in Hdist as [Hf Hdist].
    apply negb_true_iff in Hf.
    simpl scanTokens. simpl formatTokens. unfold formatToken. rewrite string_app_assoc.
    rewrite (Hused f) by (left; reflexivity).
    rewrite parseNDigits_addLeadingZeros by (apply Hprint; left; reflexivity).
    rewrite IH.
    + simpl. rewrite <- app_assoc. reflexivity.
    + intros g Hg. apply Hprint. right. exact Hg.
    + exact Hdist.
    + intros g Hg. apply existsb_field_false; [apply Hused; right; exact Hg|].
      destruct (field_eqb g f) eqn:Hgf; [|reflexivity].
      apply field_eqb_eq in Hgf. subst g.
      assert (existsb (field_eqb f) (fieldsOf toks) = true)
        by (apply existsb_exists; exists f; split; [exact Hg | apply field_eqb_refl]).
      congruence.
  - simpl fieldsOf in *. simpl scanTokens. simpl formatTokens. unfold formatToken.
    rewrite string_app_assoc, prefix_app, dropString_app.
    apply IH; assumption.
Qed.

Lemma lookupField_map (v : Field -> Z) f fs :
  lookupField f (map (fun g => (g, v g)) fs)
  = if existsb (field_eqb f) fs then Some (v f) else None.
Proof.
  induction fs as [|g fs IH]; simpl; [reflexivity|].
  destruct (field_eqb f g) eqn:Hfg; simpl; [|exact IH].
  apply field_eqb_eq in Hfg. subst g. reflexivity.
Qed.

Lemma setYear v x :
  0 < v -> applySetter Year v x = Some (mkFields v 1 1 0 0 0 0).
Proof. intros H. simpl. rewrite (proj2 (Z.ltb_lt 0 v) H). reflexivity. Qed.

Lemma setMonth v x :
  1 <= v <= 12 ->
  applySetter Month v x = Some (mkFields (f_year x) v 1 0 0 0 0).
Proof.
  intros [H1 H2]. simpl.
  rewrite (proj2 (Z.leb_le _ _) H1), (proj2 (Z.leb_le _ _) H2). reflexivity.
Qed.

Lemma setDayOfMonth v x :
  1 <= v <= daysInMonth (f_year x) (f_month x) ->
  applySetter DayOfMonth v x = Some (mkFields (f_year x) (f_month x) v 0 0 0 0).
Proof.
  intros [H1 H2]. simpl.
  rewrite (proj2 (Z.leb_le _ _) H1), (proj2 (Z.leb_le _ _) H2). reflexivity.
Qed.

Lemma setHour v x :
  0 <= v <= 23 ->
  applySetter Hour v x = Some (mkFields (f_year x) (f_month x) (f_day x) v 0 0 0).
Proof.
  intros [H1 H2]. simpl.
  rewrite (proj2 (Z.leb_le _ _) H1), (proj2 (Z.leb_le _ _) H2). reflexivity.
Qed.

Lemma setMinute v x :
  0 <= v <= 59 ->
  applySetter Minute v x
  = Some (mkFields (f_year x) (f_month x) (f_day x) (f_hour x) v 0 0).
Proof.
  intros [H1 H2]. simpl.
  rewrite (proj2 (Z.leb_le _ _) H1), (proj2 (Z.leb_le _ _) H2). reflexivity.
Qed.

Lemma setSecond v x :
  0 <= v <= 59 ->
  applySetter Second v x
  = Some (mkFields (f_year x) (f_month x) (f_day x) (f_hour x) (f_minute x) v 0).
Proof.
  intros [H1 H2]. simpl.
  rewrite (proj2 (Z.leb_le _ _) H1), (proj2 (Z.leb_le _ _) H2). reflexivity.
Qed.

(** The time of day of a local time, field by field. *)
Lemma timeOfDay_ranges t :
  0 <= f_hour (fields_of_local t) <= 23
  /\ 0 <= f_minute (fields_of_local t) <= 59
  /\ 0 <= f_second (fields_of_local t) <= 59.
Proof.
  unfold fields_of_local, civil_from_days, TimeWithinDay, msPerDay. simpl.
  Z.to_euclidean_division_equations. lia.
Qed.

Lemma printsExactly_width2 v : 0 <= v < 100 -> printsExactly 2 v = true.
Proof.
  intros H. apply (allFrom_spec _ _ 0 v printsExactly_2).
  rewrite Z2Nat.id; lia.
Qed.

Lemma printsExactly_width4 v : 0 <= v < 10000 -> printsExactly 4 v = true.
Proof.
  intros H. apply (allFrom_spec _ _ 0 v printsExactly_4).
  rewrite Z2Nat.id; lia.
Qed.

Lemma daysInMonth_le y m : daysInMonth y m <= 31.
Proof.
  unfold daysInMonth.
  destruct (m =? 2); [destruct (isLeapYear y); lia|].
  destruct ((m =? 4) || (m =? 6) || (m =? 9) || (m =? 11)); lia.
Qed.

(** Every field of a local time in the years 1 to 9999 prints at the width
    of its token. *)
Lemma fields_print t f :
  1 <= f_year (fields_of_local t) <= 9999 ->
  printsExactly (fieldWidth f) (fieldValue f (fields_of_local t)) = true.
Proof.
  intros Hy.
  pose proof (timeOfDay_ranges t) as (Hh & Hm & Hs).
  pose proof (civil_from_days_spec (Day t)) as (Hmo & Hd & _).
  pose proof (daysInMonth_le (YearFromDay (Day t)) (MonthFromDay (Day t))).
  unfold fields_of_local, civil_from_days in *.
  destruct f; unfold fieldWidth, fieldValue;
    cbn [f_year f_month f_day f_hour f_minute f_second] in *.
  - destruct (Z.ltb_spec 0 (YearFromDay (Day t))); [|lia].
    apply printsExactly_width4. lia.
  - apply printsExactly_width2. lia.
  - apply printsExactly_width2. lia.
  - apply printsExactly_width2. lia.
  - apply printsExactly_width2. lia.
  - apply printsExactly_width2. lia.
Qed.

(** From the day down, truncating is taking the remainder off. *)
Lemma truncateTo_mod zone unit ms t :
  unitMs unit = Some ms ->
  truncateTo zone unit t
  = (t + zoneMs zone) - (t + zoneMs zone) mod ms - zoneMs zone.
Proof.
  intros Hms. unfold truncateTo. f_equal.
  set (local := t + zoneMs zone).
  pose proof (civil_from_days_spec (Day local)) as (_ & _ & Hday).
  unfold local_of_fields, startOfUnit, fields_of_local, civil_from_days.
  destruct unit; try discriminate; injection Hms as <-;
    cbn [f_year f_month f_day f_hour f_minute f_second f_ms];
    rewrite Hday; unfold Day, TimeWithinDay, msPerDay;
    Z.to_euclidean_division_equations; lia.
Qed.

Lemma monthStart_range leap m : 0 <= leap <= 1 -> 0 <= monthStart leap m <= 335.
Proof.
  intros Hl. unfold monthStart.
  repeat match goal with
         | |- context [?a <=? ?b] => destruct (Z.leb_spec a b)
         | |- context [?a =? ?b] => destruct (Z.eqb_spec a b)
         end; lia.
Qed.

Ltac setters x Hy Hmo Hd Hh Hm Hs :=
  repeat (cbv iota;
          first [ rewrite setYear by (unfold x; lia)
                | rewrite setMonth by exact Hmo
                | rewrite setDayOfMonth by exact Hd
                | rewrite setHour by exact Hh
                | rewrite setMinute by exact Hm
                | rewrite setSecond by exact Hs ];
          cbn [f_year f_month f_day f_hour f_minute f_second]).

(** The setters of the fields a pattern names, applied to what [format]
    printed, give the start of the pattern's smallest unit, whatever the
    reference date. *)
Lemma applySetters_pattern toks t ref :
  datePattern toks = true ->
  1 <= f_year (fields_of_local t) <= 9999 ->
  let x := fields_of_local t in
  applySetters setterOrder
    (map (fun f => (f, fieldValue f x)) (fieldsOf toks)) ref
  = Some (startOfUnit (precisionUnit toks) x).
Proof.
  intros Hpat Hy x. unfold datePattern in Hpat.
  repeat (apply andb_prop in Hpat as [Hpat ?]).
  pose proof (timeOfDay_ranges t) as (Hh & Hm & Hs).
  pose proof (civil_from_days_spec (Day t)) as (Hmo & Hd & _).
  unfold setterOrder, precisionUnit. cbn [applySetters]. rewrite !lookupField_map.
  fold (hasField Year toks) (hasField Month toks) (hasField DayOfMonth toks)
       (hasField Hour toks) (hasField Minute toks) (hasField Second toks).
  assert (HyV : fieldValue Year x = f_year x).
  { unfold fieldValue. destruct (Z.ltb_spec 0 (f_year x)); [reflexivity|].
    unfold x in *. lia. }
  rewrite HyV. cbn [fieldValue].
  destruct (hasField Year toks); [|discriminate].
  destruct (hasField Month toks), (hasField DayOfMonth toks), (hasField Hour toks),
    (hasField Minute toks), (hasField Second toks); try discriminate;
    setters x Hy Hmo Hd Hh Hm Hs; reflexivity.
Qed.

(** The start of a unit of a local time of the years 1 to 9999 lies within
    those years. *)
Lemma startOfUnit_range unit local :
  1 <= YearFromDay (Day local) <= 9999 ->
  -719162 * 86400000
  <= local_of_fields (startOfUnit unit (fields_of_local local))
  <= 2932898 * 86400000.
Proof.
  intros Hy.
  pose proof (timeOfDay_ranges local) as (Hh & Hm & Hs).
  pose proof (civil_from_days_spec (Day local)) as (Hmo & Hd & _).
  pose proof (daysInMonth_le (YearFromDay (Day local)) (MonthFromDay (Day local))).
  assert (Hleap : 0 <= leapDay (YearFromDay (Day local)) <= 1)
    by (unfold leapDay; destruct (isLeapYear _); lia).
  pose proof (monthStart_range _ (MonthFromDay (Day local)) Hleap) as Hms.
  pose proof (monthStart_range _ 1 Hleap) as Hms1.
  pose proof (DayFromYear_mono 1 _ (proj1 Hy)) as Hlo.
  pose proof (DayFromYear_mono _ 9999 (proj2 Hy)) as Hhi.
  change (DayFromYear 1) with (-719162) in Hlo.
  change (DayFromYear 9999) with 2932532 in Hhi.
  unfold fields_of_local, civil_from_days in *.
  cbn [f_year f_hour f_minute f_second] in Hh, Hm, Hs.
  unfold local_of_fields, startOfUnit, days_from_civil, msPerDay.
  destruct unit; cbn [f_year f_month f_day f_hour f_minute f_second f_ms]; lia.
Qed.

Lemma truncateTo_fields zone unit t :
  truncateTo zone unit t
  = local_of_fields (startOfUnit unit (fields_of_local (t + zoneMs zone)))
    - zoneMs zone.
Proof. reflexivity. Qed.

(** In the years 1 to 9999 a truncated time is a time value. *)
Lemma truncateTo_valid zone unit t :
  Z.abs zone <= 1440 ->
  1 <= f_year (fields_of_local (t + zoneMs zone)) <= 9999 ->
  TimeClip (truncateTo zone unit t) = DateAt (truncateTo zone unit t).
Proof.
  intros Hz Hy. apply TimeClip_of_valid.
  pose proof (startOfUnit_range unit (t + zoneMs zone) Hy) as Hr.
  unfold truncateTo. set (T := local_of_fields _) in *.
  unfold zoneMs, maxTime. lia.
Qed.

(** What [parse] makes of the fields [format] printed. *)
Lemma applySetters_time zone toks t ref :
  datePattern toks = true ->
  Z.abs zone <= 1440 ->
  1 <= f_year (fields_of_local (t + zoneMs zone)) <= 9999 ->
  match applySetters setterOrder
          (map (fun f => (f, fieldValue f (fields_of_local (t + zoneMs zone))))
             (fieldsOf toks)) ref with
  | None => Ok InvalidDate
  | Some x => Ok (TimeClip (local_of_fields x - zoneMs zone))
  end = Ok (DateAt (truncateTo zone (precisionUnit toks) t)).
Proof.
  intros Hpat Hz Hy.
  rewrite (applySetters_pattern toks (t + zoneMs zone) ref Hpat Hy).
  rewrite <- truncateTo_fields.
  rewrite (truncateTo_valid zone _ t Hz Hy). reflexivity.
Qed.

(** [parse] reads back what [format] printed for a date of the years 1 to
    9999, up to the precision of the pattern. *)
Lemma parse_format_roundtrip zone fmt toks t now :
  tokenize fmt = Some toks ->
  datePattern toks = true ->
  Z.abs zone <= 1440 ->
  1 <= f_year (fields_of_local (t + zoneMs zone)) <= 9999 ->
  exists s,
    DateFns.format zone (DateAt t) fmt = Ok s
    /\ DateFns.parse zone s fmt (DateAt now)
       = Ok (DateAt (truncateTo zone (precisionUnit toks) t)).
Proof.
  intros Htok Hpat Hz Hy.
  exists (formatTokens (fields_of_local (t + zoneMs zone)) toks).
  split; [unfold DateFns.format; rewrite Htok; reflexivity|].
  unfold DateFns.parse.
  assert (Hfmt : String.eqb fmt "" = false).
  { destruct (String.eqb_spec fmt "") as [->|]; [|reflexivity].
    injection Htok as <-. discriminate Hpat. }
  rewrite Hfmt, Htok.
  rewrite <- (string_app_nil_r (formatTokens _ toks)).
  rewrite scanTokens_format.
  - cbn [allWhiteSpace negb app].
    exact (applySetters_time zone toks t _ Hpat Hz Hy).
  - intros f _. apply fields_print, Hy.
  - unfold datePattern in Hpat. repeat (apply andb_prop in Hpat as [Hpat ?]). exact Hpat.
  - reflexivity.
Qed.

End DateRoundTrip.




(** The same pattern read against a date before the year 1: the year is
    printed without its era, and reads back as a year of the current era. *)
Example roundtrip_before_year_1 :
  formatDate (lib := dateFns 0) DEFAULT_SETTINGS (DateAt (-62167219200000))
    Sample.world
  = (Ok "0001-01-01T00:00", Sample.world)
  /\ parseDate (lib := dateFns 0) DEFAULT_SETTINGS (VString "0001-01-01T00:00")
       Sample.world
     = (Ok (Some (DateAt (-62135596800000))), Sample.world).
Proof. repeat split. Qed.

(** What the conditions on the pattern are for.  A pattern that names a
    unit twice makes [parse] throw; one that names the minute without the
    hour reads 10:00 back as 00:00; one without the year reads the 5th of
    March 2023 back as the 5th of March of the clock's year; and the year
    with the month alone is read back to the start of the month. *)
Example roundtrip_and_the_pattern :
  parseDate (lib := dateFns 0) (Sample.withPattern "yyyy-MM-dd (yyyy)")
    (VString "2024-01-01 (2024)") Sample.world
  = (Ok None,
     withConsole
       (ErrorExn (DateFns.rangeError
                    "The format string mustn't contain the same token twice"))
       Sample.world)
  /\ formatDate (lib := dateFns 0) (Sample.withPattern "yyyy-MM-dd mm")
       (DateAt 1704103234567) Sample.world
     = (Ok "2024-01-01 00", Sample.world)
  /\ parseDate (lib := dateFns 0) (Sample.withPattern "yyyy-MM-dd mm")
       (VString "2024-01-01 00") Sample.world
     = (Ok (Some (DateAt 1704067200000)), Sample.world)
  /\ formatDate (lib := dateFns 0) (Sample.withPattern "MM-dd")
       (DateAt 1678017600000) Sample.world
     = (Ok "03-05", Sample.world)
  /\ parseDate (lib := dateFns 0) (Sample.withPattern "MM-dd")
       (VString "03-05") Sample.world
     = (Ok (Some (DateAt 1709596800000)), Sample.world)
  /\ formatDate (lib := dateFns 0) (Sample.withPattern "yyyy-MM")
       (DateAt 1704103234567) Sample.world
     = (Ok "2024-01", Sample.world)
  /\ parseDate (lib := dateFns 0) (Sample.withPattern "yyyy-MM")
       (VString "2024-01") Sample.world
     = (Ok (Some (DateAt 1704067200000)), Sample.world).
Proof. repeat split. Qed.

(** ** Further properties *)

(** *** The eligibility filter, read backwards *)

Lemma trimStart_empty s : trimStart s = "" -> allWhiteSpace s = true.
Proof.
  induction s as [|c s IH]; simpl; [reflexivity|].
  destruct (isWhiteSpace c); [exact IH | discriminate].
Qed.

Lemma trimEnd_empty c s : isWhiteSpace c = false -> trimEnd (String c s) <> "".
Proof.
  intros Hc. simpl. destruct (trimEnd s); [rewrite Hc|]; discriminate.
Qed.

Lemma trim_empty s : trim s = "" -> allWhiteSpace s = true.
Proof.
  unfold trim. intros H. apply trimStart_empty.
  destruct (trimStart s) as [|c r] eqn:Hs; [reflexivity|].
  exfalso. assert (Hc : isWhiteSpace c = false).
  { clear H. induction s as [|d s IH]; simpl in Hs; [discriminate|].
    destruct (isWhiteSpace d) eqn:Hd; [exact (IH Hs)|].
    injection Hs as <- _. exact Hd. }
  exact (trimEnd_empty c r Hc H).
Qed.

Lemma string_length_zero s : (String.length s =? 0)%nat = true -> s = "".
Proof. destruct s; [reflexivity | discriminate]. Qed.

(** The filter returns [true] for a rejected file only. *)
Lemma shouldFileBeIgnored_true settings file w w' :
  shouldFileBeIgnored settings file w = (Ok true, w') ->
  Rejected settings w file.
Proof.
  unfold shouldFileBeIgnored, isExcalidrawFile.
  destruct (String.eqb_spec (path file) "") as [Hp|_];
    [intros _; apply rejected_no_path, Hp|].
  destruct (String.eqb_spec (extension file) "md") as [_|Hext];
    [|intros _; apply rejected_not_markdown, Hext].
  destruct (String.eqb_spec (name file) "Canvas.md") as [Hn|_];
    [intros _; apply rejected_canvas, Hn|].
  simpl. run.
  destruct (vaultRead w (path file)) as [content|e] eqn:Hread; [|discriminate].
  destruct (String.length (trim content) =? 0)%nat eqn:Hlen.
  - intros _. apply (rejected_blank _ _ _ content Hread).
    apply trim_empty, string_length_zero, Hlen.
  - cbv beta. destruct (excalidrawAutomate w) as [f|] eqn:Hea; simpl.
    + destruct (f file) eqn:Hf.
      * intros _. exact (rejected_excalidraw _ _ _ content f Hread Hea Hf).
      * intros [= Hex _]. apply existsb_exists in Hex as (item & Hin & Hpre).
        exact (rejected_folder _ _ _ content item Hread Hin Hpre).
    + intros [= Hex _]. apply existsb_exists in Hex as (item & Hin & Hpre).
      exact (rejected_folder _ _ _ content item Hread Hin Hpre).
Qed.

(** X1: the eligibility filter returns [true] exactly for the six reasons,
    and leaves the host as it was when it does. *)
Theorem ignored_exactly_if_rejected :
  forall settings file w w',
    shouldFileBeIgnored settings file w = (Ok true, w')
    <-> Rejected settings w file /\ w' = w.
Proof.
  intros settings file w w'. split.
  - intros Hrun. split.
    + exact (shouldFileBeIgnored_true settings file w w' Hrun).
    + pose proof (shouldFileBeIgnored_pure settings file w) as Hpure.
      rewrite Hrun in Hpure. exact Hpure.
  - intros [Hrej ->]. exact (shouldFileBeIgnored_rejected settings file w Hrej).
Qed.

(** *** What a run of the handler can change *)

Lemma fileOnly_of_consoleOnly p w w' : consoleOnly w w' -> fileOnly p w w'.
Proof.
  intros (Hv & Hfm & Hs & Hb & Hl & Ha & He & Hc & Hn).
  repeat split; try assumption; intros q _; [rewrite Hv | rewrite Hfm]; reflexivity.
Qed.

Lemma fileOnly_withFrontMatter p fm w w' :
  consoleOnly w w' -> fileOnly p w (withFrontMatter p fm w').
Proof.
  intros (Hv & Hfm & Hs & Hb & Hl & Ha & He & Hc & Hn).
  repeat split; try assumption; intros q Hq; simpl;
    (destruct (String.eqb_spec q p); [contradiction|]);
    [rewrite Hv | rewrite Hfm]; reflexivity.
Qed.

Section EngineFacts.

Context {lib : DateLib}.
Variable settings : ToolKitSettings.

(** The primitive, run with the callback, changes the file and the console
    at most. *)
Lemma processFrontMatter_fileOnly file w :
  fileOnly (path file) w
    (snd (processFrontMatter file (updateFrontMatter settings file) w)).
Proof.
  unfold processFrontMatter. unfold bind at 1.
  destruct (frontMatterOf w (path file)) as [fm|e0];
    [|apply fileOnly_of_consoleOnly, consoleOnly_refl].
  unfold bind at 1.
  pose proof (updateFrontMatter_consoleOnly settings file fm w) as Hw.
  destruct (updateFrontMatter settings file fm w) as [[fm'|e1] w2]; simpl in Hw;
    [|apply fileOnly_of_consoleOnly, Hw].
  run. destruct (saveFault w2 (path file)); simpl.
  - apply fileOnly_of_consoleOnly, Hw.
  - apply fileOnly_withFrontMatter, Hw.
Qed.

(** The filter throws only what the vault throws on reading the file. *)
Lemma shouldFileBeIgnored_throws file w e w' :
  shouldFileBeIgnored settings file w = (Throw e, w') ->
  vaultRead w (path file) = Throw e.
Proof.
  unfold shouldFileBeIgnored, isExcalidrawFile.
  destruct (String.eqb (path file) ""); [discriminate|].
  destruct (negb (String.eqb (extension file) "md")); [discriminate|].
  destruct (String.eqb (name file) "Canvas.md"); [discriminate|].
  run. destruct (vaultRead w (path file)) as [content|e0]; [|congruence].
  destruct (String.length (trim content) =? 0)%nat; [discriminate|].
  cbv beta. destruct (excalidrawAutomate w) as [f|]; simpl;
    [destruct (f file)|]; discriminate.
Qed.

(** The handler on a file, by what the filter returns. *)
Lemma handleFileChange_cases file w :
  handleFileChange settings (AFile file) w =
  match fst (shouldFileBeIgnored settings file w) with
  | Throw e => (Throw e, w)
  | Ok true => (Ok StatusIgnored, w)
  | Ok false =>
      match processFrontMatter file (updateFrontMatter settings file) w with
      | (Ok _, w1) => (Ok StatusOk, w1)
      | (Throw e, w1) =>
          if String.eqb (exn_name e) "YAMLParseError" then
            (Ok (StatusError e),
             withConsole (ErrorText (errorMessage file e))
               (withNotice (errorMessage file e) 4000 w1))
          else (Ok StatusOk, w1)
      end
  end.
Proof.
  pose proof (shouldFileBeIgnored_pure settings file w) as Hpure.
  destruct (shouldFileBeIgnored settings file w) as [[[|]|e] w0] eqn:Hf;
    simpl in Hpure; subst w0; simpl fst.
  - unfold handleFileChange. simpl. unfold bind. rewrite Hf. reflexivity.
  - apply handleFileChange_eligible, Hf.
  - unfold handleFileChange. simpl. unfold bind. rewrite Hf. reflexivity.
Qed.

(** X2: the handler throws only when the vault fails to read the file, and
    then throws what the vault threw and changes nothing; a failure of the
    metadata primitive or of the date functions never reaches the caller. *)
Theorem handler_throws_only_on_read :
  forall file w e w',
    handleFileChange settings (AFile file) w = (Throw e, w') ->
    vaultRead w (path file) = Throw e /\ w' = w.
Proof.
  intros file w e w'. rewrite handleFileChange_cases.
  destruct (shouldFileBeIgnored settings file w) as [[[|]|e0] w0] eqn:Hf; simpl fst.
  - discriminate.
  - destruct (processFrontMatter file (updateFrontMatter settings file) w)
      as [[[]|e1] w1]; [discriminate|].
    destruct (String.eqb (exn_name e1) "YAMLParseError"); discriminate.
  - intros [= <- <-]. split; [|reflexivity].
    exact (shouldFileBeIgnored_throws file w e0 w0 Hf).
Qed.

(** The block of another file is the same after a run of the handler. *)
Lemma handler_frame_block file w q :
  q <> path file ->
  frontMatterOf (snd (handleFileChange settings (AFile file) w)) q
  = frontMatterOf w q.
Proof.
  intros Hq. rewrite handleFileChange_cases.
  destruct (fst (shouldFileBeIgnored settings file w)) as [[|]|e0];
    try reflexivity.
  pose proof (processFrontMatter_fileOnly file w) as Hb.
  destruct (processFrontMatter file (updateFrontMatter settings file) w)
    as [[[]|e1] w1]; simpl in Hb; destruct Hb as (_ & Hfm & _);
    [|destruct (String.eqb (exn_name e1) "YAMLParseError")];
    simpl; exact (Hfm q Hq).
Qed.


(** X4: the handler shows a notice exactly when it returns the error
    outcome: then the exception is named [YAMLParseError] and one notice,
    with the text for this file and exception and a timeout of 4000 ms, is
    added; with any other result the notices are those from before. *)
Theorem notice_exactly_on_error :
  forall file w,
    match handleFileChange settings (AFile file) w with
    | (Ok (StatusError e), w') =>
        exn_name e = "YAMLParseError"
        /\ notices w' = notices w ++ [(errorMessage file e, 4000)]
    | (_, w') => notices w' = notices w
    end.
Proof.
  intros file w. rewrite handleFileChange_cases.
  destruct (fst (shouldFileBeIgnored settings file w)) as [[|]|e0];
    try reflexivity.
  pose proof (processFrontMatter_fileOnly file w) as Hb.
  destruct (processFrontMatter file (updateFrontMatter settings file) w)
    as [[[]|e1] w1]; simpl in Hb;
    destruct Hb as (_ & _ & _ & _ & _ & _ & _ & _ & Hn); [exact Hn|].
  destruct (String.eqb_spec (exn_name e1) "YAMLParseError") as [Hname|_];
    [|exact Hn].
  split; [exact Hname|]. simpl. rewrite Hn. reflexivity.
Qed.

End EngineFacts.

Lemma handler_throws_only_on_read_witness :
  vaultRead Sample.missingWorld (path Sample.note) = Throw Sample.ioError
  /\ Sample.missingWorld = Sample.missingWorld.
Proof.
  apply (@handler_throws_only_on_read (dateFns 0) Sample.settings Sample.note
           Sample.missingWorld Sample.ioError Sample.missingWorld).
  reflexivity.
Defined.


(** *** The callback on the metadata block *)

Section CallbackFacts.

Context {lib : DateLib}.
Variable settings : ToolKitSettings.

Lemma writeTimestamp_inv d fm w fm' w' :
  writeTimestamp settings d fm w = (Ok fm', w') ->
  exists value,
    format d (dateFormat settings) = Ok value
    /\ fm' = <[headerUpdated settings := VString value]> fm /\ w' = w.
Proof.
  unfold writeTimestamp, formatDate. run.
  destruct (format d (dateFormat settings)) as [value|e]; [|discriminate].
  intros [= <- <-]. exists value. auto.
Qed.

(** What [parseDate] returns depends on the host through the clock only. *)
Lemma parseDate_clock v w1 w2 :
  clock w1 = clock w2 ->
  fst (parseDate settings v w1) = fst (parseDate settings v w2).
Proof.
  intros Hc. destruct v; try reflexivity.
  rewrite !parseDate_string, Hc.
  destruct (parse s (dateFormat settings) (TimeClip (clock w2))) as [[|t]|e];
    reflexivity.
Qed.

(** The callback either leaves the block or assigns the formatted file time
    to the key. *)
Lemma updateFrontMatter_result file fm w fm' w' :
  updateFrontMatter settings file fm w = (Ok fm', w') ->
  fm' = fm
  \/ exists value,
       format (TimeClip (mtime (stat file))) (dateFormat settings) = Ok value
       /\ fm' = <[headerUpdated settings := VString value]> fm.
Proof.
  destruct (parseDate_returns settings (getKey fm (headerUpdated settings)) w)
    as (r & w1 & Hp & _).
  rewrite (updateFrontMatter_step settings file fm w r w1 Hp).
  destruct (falsy (getKey fm (headerUpdated settings))), r as [stored|];
    try (intros (value & Hf & -> & _)%writeTimestamp_inv; right; eauto).
  destruct (shouldUpdateValue settings (TimeClip (mtime (stat file))) stored).
  - intros (value & Hf & -> & _)%writeTimestamp_inv. right. eauto.
  - intros [= <- _]. left. reflexivity.
Qed.

(** X5: the callback touches one key: when it returns, the block is the one
    it was given, or that block with the key [headerUpdated] set to the
    string [format] returned for the file time; every other key keeps its
    value and no key is removed. *)
Theorem callback_sets_one_key :
  forall file fm w fm' w',
    updateFrontMatter settings file fm w = (Ok fm', w') ->
    (fm' = fm
     \/ exists value,
          format (TimeClip (mtime (stat file))) (dateFormat settings) = Ok value
          /\ fm' = <[headerUpdated settings := VString value]> fm)
    /\ (forall key, key <> headerUpdated settings -> fm' !! key = fm !! key)
    /\ (forall key, is_Some (fm !! key) -> is_Some (fm' !! key)).
Proof.
  intros file fm w fm' w' Hrun.
  pose proof (updateFrontMatter_result file fm w fm' w' Hrun) as Hres.
  split; [exact Hres|].
  destruct Hres as [->|(value & _ & ->)]; [auto|]. split.
  - intros key Hkey. rewrite lookup_insert_ne by congruence. reflexivity.
  - intros key Hsome.
    destruct (decide (headerUpdated settings = key)) as [<-|Hne].
    + rewrite lookup_insert_eq. eauto.
    + rewrite lookup_insert_ne by exact Hne. exact Hsome.
Qed.

(** A key the block does not have and every object inherits reads as a
    truthy value that is no date: the callback leaves the block as it is. *)
Lemma inherited_key_is_kept file fm w :
  fm !! headerUpdated settings = None ->
  isInherited (headerUpdated settings) = true ->
  updateFrontMatter settings file fm w = (Ok fm, w).
Proof.
  intros Habsent Hinherited.
  assert (Hread : getKey fm (headerUpdated settings) = inheritedValue)
    by (unfold getKey; rewrite Habsent, Hinherited; reflexivity).
  rewrite (updateFrontMatter_step settings file fm w (Some InvalidDate) w)
    by (rewrite Hread; reflexivity).
  rewrite Hread. simpl.
  unfold shouldUpdateValue, DateFns.add_minutes, DateFns.isAfter.
  destruct (TimeClip (mtime (stat file))); reflexivity.
Qed.

(** X6: the callback is idempotent on the block, for the same file time: run
    again on the block it returned, it returns that block again, in any
    state of the host when the first run changed the block, and in any state
    whose clock reads the same when it did not ([parse] is given the clock's
    reading as its reference date). *)
Theorem callback_is_idempotent :
  forall file fm w fm' w' w2,
    updateFrontMatter settings file fm w = (Ok fm', w') ->
    fm' <> fm \/ clock w2 = clock w ->
    exists w3, updateFrontMatter settings file fm' w2 = (Ok fm', w3).
Proof.
  intros file fm w fm' w' w2 Hrun Hsame.
  destruct (parseDate_returns settings (getKey fm' (headerUpdated settings)) w2)
    as (r2 & w3 & Hp2 & _).
  exists w3. rewrite (updateFrontMatter_step settings file fm' w2 r2 w3 Hp2).
  destruct (parseDate_returns settings (getKey fm (headerUpdated settings)) w)
    as (r & w1 & Hp & _).
  rewrite (updateFrontMatter_step settings file fm w r w1 Hp) in Hrun.
  assert (Hwritten : forall value,
             format (TimeClip (mtime (stat file))) (dateFormat settings) = Ok value ->
             fm' = <[headerUpdated settings := VString value]> fm ->
             writeTimestamp settings (TimeClip (mtime (stat file))) fm' w3
             = (Ok fm', w3)).
  { intros value Hf ->. rewrite (writeTimestamp_ok settings _ _ _ value Hf).
    rewrite insert_insert_eq. reflexivity. }
  assert (Hagain : forall value,
             format (TimeClip (mtime (stat file))) (dateFormat settings) = Ok value ->
             fm' = <[headerUpdated settings := VString value]> fm ->
             match falsy (getKey fm' (headerUpdated settings)), r2 with
             | false, Some stored =>
                 if shouldUpdateValue settings (TimeClip (mtime (stat file))) stored
                 then writeTimestamp settings (TimeClip (mtime (stat file))) fm' w3
                 else (Ok fm', w3)
             | _, _ => writeTimestamp settings (TimeClip (mtime (stat file))) fm' w3
             end = (Ok fm', w3)).
  { intros value Hf Hfm.
    destruct (falsy (getKey fm' (headerUpdated settings))), r2 as [stored|];
      try exact (Hwritten value Hf Hfm).
    destruct (shouldUpdateValue settings (TimeClip (mtime (stat file))) stored);
      [exact (Hwritten value Hf Hfm) | reflexivity]. }
  destruct (falsy (getKey fm (headerUpdated settings))) eqn:Hfalsy, r as [stored|];
    try (apply writeTimestamp_inv in Hrun as (value & Hf & Hfm & _);
         exact (Hagain value Hf Hfm)).
  destruct (shouldUpdateValue settings (TimeClip (mtime (stat file))) stored) eqn:Hdue.
  - apply writeTimestamp_inv in Hrun as (value & Hf & Hfm & _).
    exact (Hagain value Hf Hfm).
  - injection Hrun as <- <-.
    destruct Hsame as [Hchanged | Hclock]; [contradiction Hchanged; reflexivity|].
    assert (Hr2 : r2 = Some stored).
    { pose proof (parseDate_clock (getKey fm (headerUpdated settings)) w2 w Hclock)
        as Hc.
      rewrite Hp2, Hp in Hc. simpl in Hc. congruence. }
    rewrite Hfalsy, Hr2, Hdue. reflexivity.
Qed.

(** X9: once an update is due it stays due as the file time advances. *)
Theorem update_stays_due :
  forall t1 t1' stored,
    shouldUpdateValue settings (DateAt t1) stored = true ->
    t1 <= t1' ->
    shouldUpdateValue settings (DateAt t1') stored = true.
Proof.
  intros t1 t1' stored. unfold shouldUpdateValue, DateFns.isAfter.
  destruct (DateFns.add_minutes stored (minMinutesBetweenSaves settings)) as [|b];
    [discriminate|].
  rewrite !Z.ltb_lt. lia.
Qed.

End CallbackFacts.

Lemma callback_sets_one_key_witness :
  (<["updated" := VString "2024-01-01T10:06"]> Sample.block = Sample.block
   \/ exists value,
        format (DateLib := dateFns 0) (TimeClip (mtime (stat Sample.note)))
          (dateFormat Sample.settings) = Ok value
        /\ <["updated" := VString "2024-01-01T10:06"]> Sample.block
           = <[headerUpdated Sample.settings := VString value]> Sample.block)
  /\ (forall key, key <> headerUpdated Sample.settings ->
        <["updated" := VString "2024-01-01T10:06"]> Sample.block !! key
        = Sample.block !! key)
  /\ (forall key, is_Some (Sample.block !! key) ->
        is_Some (<["updated" := VString "2024-01-01T10:06"]> Sample.block !! key)).
Proof.
  apply (@callback_sets_one_key (dateFns 0) Sample.settings Sample.note
           Sample.block Sample.world _ Sample.world).
  reflexivity.
Defined.

Lemma callback_is_idempotent_witness :
  exists w3,
    updateFrontMatter (lib := dateFns 0) Sample.settings Sample.note
      (<["updated" := VString "2024-01-01T10:06"]> Sample.block)
      Sample.readOnlyWorld
    = (Ok (<["updated" := VString "2024-01-01T10:06"]> Sample.block), w3).
Proof.
  apply (@callback_is_idempotent (dateFns 0) Sample.settings Sample.note
           Sample.block Sample.world _ Sample.world Sample.readOnlyWorld).
  - reflexivity.
  - right. reflexivity.
Defined.

(** The clock matters to a block the first run left alone.  The pattern
    [dd] names the day only and [parse] takes the month from the clock: a
    stored [30] is the 30th of January while the clock reads January, and no
    date once it reads February; the file time, the 29th of January at noon,
    is then written over it. *)
Example rerun_in_another_month_rewrites :
  let settings := mkSettings "default" false "dd" "updated" 5 (IgnoreList []) in
  let file := mkTFile "notes/today.md" "today.md" "md" (mkStats 0 1706529600000 120) in
  let fm : FrontMatter := {[ "updated" := VString "30" ]} in
  let january := mkWorld (vaultRead Sample.world) (frontMatterOf Sample.world)
                   (saveFault Sample.world) (writeBlock Sample.world) [] None None
                   1706529610000 [] [] in
  let february := mkWorld (vaultRead Sample.world) (frontMatterOf Sample.world)
                    (saveFault Sample.world) (writeBlock Sample.world) [] None None
                    1706745600000 [] [] in
  updateFrontMatter (lib := dateFns 0) settings file fm january = (Ok fm, january)
  /\ updateFrontMatter (lib := dateFns 0) settings file fm february
     = (Ok (<["updated" := VString "29"]> fm), february).
Proof. split; reflexivity. Qed.

Lemma update_stays_due_witness :
  shouldUpdateValue Sample.settings (DateAt 1704103800000) (DateAt 1704103200000)
  = true.
Proof.
  apply (update_stays_due Sample.settings 1704103560000 1704103800000
           (DateAt 1704103200000)).
  - reflexivity.
  - vm_compute. congruence.
Defined.


(** *** The debounce on a timestamp the engine wrote *)

Lemma nonEmpty_app_l a b : nonEmpty a = true -> nonEmpty (a +:+ b) = true.
Proof. destruct a; [discriminate | reflexivity]. Qed.

Lemma nonEmpty_app_r a b : nonEmpty b = true -> nonEmpty (a +:+ b) = true.
Proof. destruct a; [simpl; auto | reflexivity]. Qed.

Lemma formatTokens_nonEmpty x toks :
  (forall f, printsExactly (DateFns.fieldWidth f) (DateFns.fieldValue f x) = true) ->
  hasField DateFns.Year toks = true ->
  nonEmpty (DateFns.formatTokens x toks) = true.
Proof.
  intros Hprint. unfold hasField.
  induction toks as [|[f|text] toks IH]; simpl; [discriminate| |].
  - intros _. apply nonEmpty_app_l.
    specialize (Hprint f). unfold printsExactly in Hprint.
    apply andb_prop in Hprint as [_ Hne]. exact Hne.
  - intros H. apply nonEmpty_app_r, IH, H.
Qed.

(** X7: in the model of date-fns, under a pattern of the modelled tokens
    that names each unit at most once, the year, and no smaller unit without
    the one above it, a block whose key holds what [format] printed for the
    time [t], of a local year from 1 to 9999, is left as it is by every
    change whose file time is at most the window after [t] truncated to the
    smallest unit the pattern names, and gets the formatted file time at
    every later one. *)
Theorem stored_timestamp_debounces :
  forall zone settings toks file fm w t s,
    DateFns.tokenize (dateFormat settings) = Some toks ->
    datePattern toks = true ->
    Z.abs zone <= 1440 ->
    Z.abs (clock w) <= maxTime ->
    1 <= DateFns.f_year (DateFns.fields_of_local (t + DateFns.zoneMs zone)) <= 9999 ->
    0 <= minMinutesBetweenSaves settings ->
    DateFns.format zone (DateAt t) (dateFormat settings) = Ok s ->
    getKey fm (headerUpdated settings) = VString s ->
    Z.abs (mtime (stat file)) <= maxTime ->
    let due :=
      truncateTo zone (precisionUnit toks) t
      + minMinutesBetweenSaves settings * 60000 in
    (mtime (stat file) <= due ->
       updateFrontMatter (lib := dateFns zone) settings file fm w = (Ok fm, w))
    /\ (due < mtime (stat file) ->
       exists value,
         DateFns.format zone (DateAt (mtime (stat file))) (dateFormat settings)
         = Ok value
         /\ updateFrontMatter (lib := dateFns zone) settings file fm w
            = (Ok (<[headerUpdated settings := VString value]> fm), w)).
Proof.
  intros zone settings toks file fm w t s Htok Hpat Hz Hclock Hy Hm Hs Hkey Hmt due.
  destruct (parse_format_roundtrip zone (dateFormat settings) toks t (clock w)
              Htok Hpat Hz Hy) as (s' & Hformat & Hparse).
  assert (s' = s) by congruence. subst s'.
  assert (Hne : nonEmpty s = true).
  { unfold DateFns.format in Hs. rewrite Htok in Hs. injection Hs as <-.
    apply formatTokens_nonEmpty; [intros f; apply fields_print, Hy|].
    unfold datePattern in Hpat. repeat (apply andb_prop in Hpat as [Hpat ?]).
    assumption. }
  assert (Hstored : parseDate (lib := dateFns zone) settings (VString s) w
                    = (Ok (Some (DateAt (truncateTo zone (precisionUnit toks) t))), w)).
  { rewrite parseDate_string. cbn [parse dateFns].
    rewrite (TimeClip_of_valid _ Hclock), Hparse. reflexivity. }
  assert (HT : Z.abs (truncateTo zone (precisionUnit toks) t) <= maxTime).
  { apply TimeClip_valid, truncateTo_valid; [exact Hz | exact Hy]. }
  rewrite <- Hkey in Hstored.
  rewrite (updateFrontMatter_step settings file fm w _ w Hstored), Hkey.
  assert (Hfalsy : falsy (VString s) = false).
  { simpl. destruct (string_dec s "") as [->|]; [discriminate Hne | reflexivity]. }
  rewrite Hfalsy, (TimeClip_of_valid _ Hmt).
  pose proof (shouldUpdateValue_spec settings (mtime (stat file)) _ HT Hmt Hm) as Hspec.
  fold due in Hspec.
  destruct (shouldUpdateValue settings (DateAt (mtime (stat file)))
              (DateAt (truncateTo zone (precisionUnit toks) t))).
  - split; intros Hcmp.
    + assert (due < mtime (stat file)) by (apply Hspec; reflexivity). lia.
    + exists (DateFns.formatTokens
                (DateFns.fields_of_local (mtime (stat file) + DateFns.zoneMs zone)) toks).
      assert (Hf1 : DateFns.format zone (DateAt (mtime (stat file))) (dateFormat settings)
                    = Ok (DateFns.formatTokens
                            (DateFns.fields_of_local
                               (mtime (stat file) + DateFns.zoneMs zone)) toks))
        by (unfold DateFns.format; rewrite Htok; reflexivity).
      split; [exact Hf1|].
      apply (writeTimestamp_ok (lib := dateFns zone)). exact Hf1.
  - split; intros Hcmp.
    + reflexivity.
    + apply Hspec in Hcmp. discriminate.
Qed.

Lemma stored_timestamp_debounces_witness :
  updateFrontMatter (lib := dateFns 0) Sample.settings Sample.noteEarlier
    Sample.block Sample.world
  = (Ok Sample.block, Sample.world).
Proof.
  apply (stored_timestamp_debounces 0 Sample.settings
           [DateFns.TokField DateFns.Year; DateFns.TokLiteral "-";
            DateFns.TokField DateFns.Month; DateFns.TokLiteral "-";
            DateFns.TokField DateFns.DayOfMonth; DateFns.TokLiteral "T";
            DateFns.TokField DateFns.Hour; DateFns.TokLiteral ":";
            DateFns.TokField DateFns.Minute]
           Sample.noteEarlier Sample.block Sample.world 1704103234567
           "2024-01-01T10:00");
    try reflexivity; vm_compute; try split; congruence.
Defined.

(** *** The list of excluded folders *)

Lemma prefix_empty s : String.prefix "" s = true.
Proof. destruct s; reflexivity. Qed.

(** X10: once a folder is added in the settings tab, a change to any file
    whose path starts with it (and whose content the vault can read) is
    ignored and changes nothing, whatever was in the list before, a legacy
    string included. *)
Theorem added_folder_is_ignored :
  forall (lib : DateLib) settings newFolder file w content,
    vaultRead w (path file) = Ok content ->
    String.prefix newFolder (path file) = true ->
    getIgnoreFolders (addFolder newFolder settings)
    = getIgnoreFolders settings ++ [newFolder]
    /\ handleFileChange (addFolder newFolder settings) (AFile file) w
       = (Ok StatusIgnored, w).
Proof.
  intros lib settings newFolder file w content Hread Hprefix.
  split; [reflexivity|].
  assert (Hrej : Rejected (addFolder newFolder settings) w file).
  { apply (rejected_folder _ _ _ content newFolder Hread); [|exact Hprefix].
    unfold addFolder, getIgnoreFolders at 1. simpl.
    apply in_or_app. right. left. reflexivity. }
  unfold handleFileChange. simpl. unfold bind.
  rewrite (shouldFileBeIgnored_rejected _ file w Hrej). reflexivity.
Qed.

Lemma added_folder_is_ignored_witness :
  getIgnoreFolders (addFolder "notes/" Sample.settings)
  = getIgnoreFolders Sample.settings ++ ["notes/"]
  /\ handleFileChange (lib := dateFns 0) (addFolder "notes/" Sample.settings)
       (AFile Sample.note) Sample.world
     = (Ok StatusIgnored, Sample.world).
Proof.
  apply (added_folder_is_ignored (dateFns 0) Sample.settings "notes/" Sample.note
           Sample.world "# Today");
    reflexivity.
Defined.

(** X11: the "Add folder" button does not look at what it adds: clicked on
    an empty search field it adds the empty string, every path starts with
    it, and from then on every change to a readable file is ignored. *)
Theorem empty_folder_ignores_every_file :
  forall (lib : DateLib) settings file w content,
    vaultRead w (path file) = Ok content ->
    handleFileChange (addFolder "" settings) (AFile file) w = (Ok StatusIgnored, w).
Proof.
  intros lib settings file w content Hread.
  assert (Hrej : Rejected (addFolder "" settings) w file).
  { apply (rejected_folder _ _ _ content "" Hread); [|apply prefix_empty].
    unfold addFolder, getIgnoreFolders at 1. simpl.
    apply in_or_app. right. left. reflexivity. }
  unfold handleFileChange. simpl. unfold bind.
  rewrite (shouldFileBeIgnored_rejected _ file w Hrej). reflexivity.
Qed.

Lemma empty_folder_ignores_every_file_witness :
  handleFileChange (lib := dateFns 0) (addFolder "" Sample.settings)
    (AFile Sample.note) Sample.world
  = (Ok StatusIgnored, Sample.world).
Proof.
  apply (empty_folder_ignores_every_file (dateFns 0) Sample.settings Sample.note
           Sample.world "# Today").
  reflexivity.
Defined.

Lemma getIgnoreFolders_list l settings :
  getIgnoreFolders (withIgnoreGlobalFolder (IgnoreList l) settings) = l.
Proof. reflexivity. Qed.

Lemma filter_other_id (f : string) (l : list string) :
  ~ In f l -> List.filter (fun value => negb (String.eqb value f)) l = l.
Proof.
  induction l as [|g l IH]; intros Hnot; simpl; [reflexivity|].
  destruct (String.eqb_spec g f) as [->|_]; simpl.
  - exfalso. apply Hnot. left. reflexivity.
  - rewrite IH; [reflexivity|]. intros Hin. apply Hnot. right. exact Hin.
Qed.

(** X12: "Remove" removes every occurrence of the folder of its row and
    nothing else, and leaves a list behind, not a legacy string; removing a
    folder right after adding it, when it was not listed before, gives the
    list from before the two clicks. *)
Theorem removed_folder_is_gone :
  forall settings ignoreFolder,
    ~ In ignoreFolder (getIgnoreFolders (removeFolder ignoreFolder settings))
    /\ (forall other,
          other <> ignoreFolder ->
          (In other (getIgnoreFolders (removeFolder ignoreFolder settings))
           <-> In other (getIgnoreFolders settings)))
    /\ ignoreGlobalFolder (removeFolder ignoreFolder settings)
       = IgnoreList (getIgnoreFolders (removeFolder ignoreFolder settings))
    /\ (~ In ignoreFolder (getIgnoreFolders settings) ->
        getIgnoreFolders (removeFolder ignoreFolder (addFolder ignoreFolder settings))
        = getIgnoreFolders settings).
Proof.
  intros settings f. unfold removeFolder, addFolder.
  rewrite !getIgnoreFolders_list.
  split; [|split; [|split]].
  - intros [_ Hf]%filter_In. destruct (String.eqb_spec f f); [discriminate | auto].
  - intros other Hother. rewrite filter_In. split; [intros [H _]; exact H|].
    intros Hin. split; [exact Hin|].
    destruct (String.eqb_spec other f); [contradiction | reflexivity].
  - reflexivity.
  - intros Hnot. rewrite List.filter_app. simpl.
    rewrite String.eqb_refl. simpl. rewrite app_nil_r.
    apply filter_other_id, Hnot.
Qed.

Lemma removed_folder_is_gone_witness :
  getIgnoreFolders (removeFolder "notes/" (addFolder "notes/" Sample.settings))
  = getIgnoreFolders Sample.settings.
Proof.
  apply (removed_folder_is_gone Sample.settings "notes/").
  intros [].
Defined.

(** *** Images *)

(** X13: a file [isImage] accepts, whatever the case of its extension, is
    not a markdown file: a change to it is ignored and changes nothing. *)
Theorem image_is_ignored :
  forall (lib : DateLib) settings file w,
    isImage file = true ->
    handleFileChange settings (AFile file) w = (Ok StatusIgnored, w).
Proof.
  intros lib settings file w Himage.
  assert (Hrej : Rejected settings w file).
  { apply rejected_not_markdown. intros Hext.
    unfold isImage in Himage. rewrite Hext in Himage. discriminate Himage. }
  unfold handleFileChange. simpl. unfold bind.
  rewrite (shouldFileBeIgnored_rejected _ file w Hrej). reflexivity.
Qed.

Lemma image_is_ignored_witness :
  handleFileChange (lib := dateFns 0) Sample.settings (AFile Sample.photo)
    Sample.world
  = (Ok StatusIgnored, Sample.world).
Proof.
  apply (image_is_ignored (dateFns 0) Sample.settings Sample.photo Sample.world).
  reflexivity.
Defined.

(** *** The link normalizer on other documents *)

(** A match of the pattern starts with [![[]. *)
Lemma matchHere_needs_opener s :
  String.prefix "![[" s = false -> matchHere embedPattern s = None.
Proof.
  intros Hpre. unfold matchHere. cbv [embedPattern rseq].
  destruct s as [|c1 s]; [reflexivity|].
  rewrite rmatch_seq.
  destruct (Ascii.eqb_spec "!" c1) as [<-|Hc1]; [|apply rmatch_char_miss, Hc1].
  rewrite rmatch_char_hit. cbv beta.
  destruct s as [|c2 s]; [reflexivity|].
  rewrite rmatch_seq.
  destruct (Ascii.eqb_spec "[" c2) as [<-|Hc2]; [|apply rmatch_char_miss, Hc2].
  rewrite rmatch_char_hit. cbv beta.
  destruct s as [|c3 s]; [reflexivity|].
  rewrite rmatch_seq.
  destruct (Ascii.eqb_spec "[" c3) as [<-|Hc3]; [|apply rmatch_char_miss, Hc3].
  exfalso. simpl in Hpre. destruct s; discriminate Hpre.
Qed.

(** X14: a document in which [![[] does not occur is rewritten to itself,
    whatever the link index holds. *)
Theorem document_without_embed_is_kept :
  forall files docContent,
    includes docContent "![[" = false ->
    newContent files docContent = docContent.
Proof.
  intros files doc. unfold newContent, replaceAll.
  induction doc as [|c doc IH]; intros Hno; [reflexivity|].
  simpl in Hno. apply orb_false_elim in Hno as [Hhere Hrest].
  simpl. rewrite (matchHere_needs_opener (String c doc) Hhere).
  rewrite (IH Hrest). reflexivity.
Qed.

Lemma document_without_embed_is_kept_witness :
  newContent [("assets/img 1.png", 1)] "Done! See [[today]] and ![alt](x.png)."
  = "Done! See [[today]] and ![alt](x.png).".
Proof.
  apply (document_without_embed_is_kept [("assets/img 1.png", 1)]).
  reflexivity.
Defined.

Lemma prefix_refl s : String.prefix s s = true.
Proof.
  induction s as [|c s IH]; simpl; [reflexivity|].
  destruct (ascii_dec c c); [exact IH | contradiction].
Qed.

Lemma includes_refl s : includes s s = true.
Proof.
  destruct s as [|c s]; [reflexivity|].
  change (includes (String c s) (String c s))
    with (String.prefix (String c s) (String c s) || includes s (String c s)).
  rewrite prefix_refl. reflexivity.
Qed.

(** X16: the path the replacer puts in the link always includes the
    reference: it is the reference itself or a target path of the index that
    includes it; a path of the index unrelated to the reference is never
    chosen. *)
Theorem resolved_url_includes_reference :
  forall files url,
    includes (resolveUrl files url) url = true
    /\ (resolveUrl files url = url
        \/ exists nr, In (resolveUrl files url, nr) files).
Proof.
  intros files url. induction files as [|[filePath nr] files IH]; simpl.
  - split; [apply includes_refl | left; reflexivity].
  - destruct (includes filePath url) eqn:Hinc.
    + split; [exact Hinc | right; exists nr; left; reflexivity].
    + destruct IH as [IH1 [IH2 | (nr' & IH2)]]; split; auto.
      right. exists nr'. right. exact IH2.
Qed.

(** X15: what [getFiles] can return: the links of an entry of the index
    under the path of the active file; [null] when the index is empty or,
    with an active file, has no entry under its path; and a [TypeError] when
    no file is active and the index is not empty. *)
Theorem getFiles_outcomes :
  forall w,
    match getFiles w with
    | Ok (Some links) =>
        exists file,
          activeFile w = Some file /\ In (path file, links) (resolvedLinks w)
    | Ok None =>
        resolvedLinks w = []
        \/ exists file,
             activeFile w = Some file
             /\ forall links, ~ In (path file, links) (resolvedLinks w)
    | Throw e =>
        activeFile w = None /\ resolvedLinks w <> [] /\ exn_name e = "TypeError"
    end.
Proof.
  intros w. unfold getFiles.
  destruct (activeFile w) as [file|].
  - induction (resolvedLinks w) as [|[mdFile links] entries IH]; simpl.
    + left. reflexivity.
    + destruct (String.eqb_spec (path file) mdFile) as [Heq|Hne].
      * exists file. split; [reflexivity|]. left. rewrite Heq. reflexivity.
      * destruct (getFiles_loop (Some file) entries) as [[found|]|e].
        -- destruct IH as (file' & [= <-] & Hin). exists file.
           split; [reflexivity | right; exact Hin].
        -- right. exists file. split; [reflexivity|].
           intros links' [[= Heq _]|Hin]; [congruence|].
           destruct IH as [->|(file' & [= <-] & Hno)]; [exact Hin|].
           exact (Hno links' Hin).
        -- destruct IH as ([=] & _).
  - destruct (resolvedLinks w) as [|[mdFile links] entries]; simpl.
    + left. reflexivity.
    + repeat split. discriminate.
Qed.

(** *** The listener of the [modify] event *)

(** X17: a [modify] event, whatever file it is for, changes the metadata
    block of no file but the active one; with no active file it changes no
    block at all. *)
Theorem modify_changes_active_block_only :
  forall (lib : DateLib) settings file w q,
    (forall active, activeFile w = Some active -> path active <> q) ->
    frontMatterOf (snd (onModify settings file w)) q = frontMatterOf w q.
Proof.
  intros lib settings file w q Hq. unfold onModify. run.
  destruct (activeFile w) as [active|] eqn:Hactive; [|reflexivity].
  destruct file as [f|]; [|reflexivity].
  destruct (String.eqb_spec (path active) (path f)) as [Heq|_]; [|reflexivity].
  assert (Hqf : q <> path f).
  { intros ->. exact (Hq active eq_refl Heq). }
  pose proof (handler_frame_block settings f w q Hqf) as Hframe.
  destruct (handleFileChange settings (AFile f) w) as [[outcome|e] w']; exact Hframe.
Qed.

Lemma modify_changes_active_block_only_witness :
  frontMatterOf
    (snd (onModify (lib := dateFns 0) Sample.settings (AFile Sample.note)
            Sample.world)) "notes/other.md"
  = frontMatterOf Sample.world "notes/other.md".
Proof.
  apply (modify_changes_active_block_only (dateFns 0) Sample.settings
           (AFile Sample.note) Sample.world "notes/other.md").
  intros active [= <-]. discriminate.
Defined.

(** *** The command and the cursor *)

(** X18: when the command returns, the cursor is at column 0 of the line it
    was on and that position is scrolled into view, whether or not the text
    was rewritten; the text is the old one, or the rewritten one when the
    index has an entry for the active file. *)
Theorem command_moves_cursor_to_line_start :
  forall w editor editor',
    renameAllImageUrl w editor = Ok editor' ->
    editorCursor editor' = mkPos (line (editorCursor editor)) 0
    /\ editorView editor'
       = Some (mkPos (line (editorCursor editor)) 0,
               mkPos (line (editorCursor editor)) 0)
    /\ (getFiles w = Ok None /\ editorValue editor' = editorValue editor
        \/ exists files,
             getFiles w = Ok (Some files)
             /\ editorValue editor' = newContent files (editorValue editor)).
Proof.
  intros w editor editor'. unfold renameAllImageUrl.
  destruct (getFiles w) as [[files|]|e]; [| |discriminate];
    intros [= <-]; repeat split; [right; exists files|left]; split; reflexivity.
Qed.

Lemma command_moves_cursor_to_line_start_witness :
  exists editor',
    renameAllImageUrl Sample.unindexedWorld Sample.editor = Ok editor'
    /\ editorCursor editor' = mkPos 1 0.
Proof.
  eexists. split; [reflexivity|].
  apply (command_moves_cursor_to_line_start Sample.unindexedWorld Sample.editor).
  reflexivity.
Defined.

(** *** Eligible files *)

(** X19: a change to a file whose content the vault can read and that none
    of the six reasons rejects is handled: the handler returns [ok] or the
    error outcome, never [ignored], and does not throw. *)
Theorem eligible_file_is_handled :
  forall (lib : DateLib) settings file w content,
    vaultRead w (path file) = Ok content ->
    ~ Rejected settings w file ->
    exists outcome w',
      handleFileChange settings (AFile file) w = (Ok outcome, w')
      /\ outcome <> StatusIgnored.
Proof.
  intros lib settings file w content Hread Hnot.
  rewrite handleFileChange_cases.
  destruct (shouldFileBeIgnored settings file w) as [[[|]|e] w0] eqn:Hf; simpl fst.
  - exfalso. exact (Hnot (shouldFileBeIgnored_true settings file w w0 Hf)).
  - destruct (processFrontMatter file (updateFrontMatter settings file) w)
      as [[[]|e1] w1]; [eexists _, _; split; [reflexivity | discriminate]|].
    destruct (String.eqb (exn_name e1) "YAMLParseError");
      eexists _, _; (split; [reflexivity | discriminate]).
  - apply shouldFileBeIgnored_throws in Hf. congruence.
Qed.

Lemma eligible_file_is_handled_witness :
  exists outcome w',
    handleFileChange (lib := dateFns 0) Sample.settings (AFile Sample.note)
      Sample.world = (Ok outcome, w')
    /\ outcome <> StatusIgnored.
Proof.
  apply (eligible_file_is_handled (dateFns 0) Sample.settings Sample.note
           Sample.world "# Today").
  - reflexivity.
  - intros [H|H|H|content Hread H|content isExcalidraw _ H _
            |content ignoreItem _ H _].
    + discriminate H.
    + apply H. reflexivity.
    + discriminate H.
    + injection Hread as <-. discriminate H.
    + discriminate H.
    + destruct H.
Defined.
